(** * Squat repetition detector: a shallow embedding of [Project/analysis.py]

    The analyzer tracks the vertical pixel coordinate of one ArUco marker and
    counts repetitions with a two-state machine, [above -> below -> above].
    Marker dictionaries are finite maps keyed by the marker id, the analyzer
    object is a record that every method receives and returns, and the
    string-typed [state] field is kept a string, so that the fallback branch
    of [update] stays representable. *)

From stdpp Require Import base gmap strings list pretty.
From Stdlib Require Import ZArith QArith Ascii Lia.

Local Open Scope Z_scope.

(** ** Data model *)

(** The dataclass returned by [update] on every frame.  [depth] is
    [float(hip_y)]; the camera yields integer pixel centres, so the value is
    carried as the integer it converts. *)
Module SquatResult.
Record t : Type := mk {
  rep_count : Z;
  new_rep : bool;
  depth : option Z;
  state : string;
  status_text : string
}.
End SquatResult.

(** One entry of the marker dictionary built by [Camera.get_frame_and_markers].
    Only ["center"] is read by the analyzer; it is the pair [(cx, cy)]. *)
Record Marker : Type := mkMarker { center : Z * Z }.

(** The instance fields of [SquatAnalyzer]. *)
Record SquatAnalyzer : Type := mkSquatAnalyzer {
  hip_id : Z;
  top_threshold : Z;
  bottom_threshold : Z;
  min_frames_below : Z;
  require_marker : bool;
  state : string;
  rep_count : Z;
  _below_frame_counter : Z
}.

(** Attribute assignments [self.field = v]. *)
Definition set_top_threshold (v : Z) (self : SquatAnalyzer) : SquatAnalyzer :=
  mkSquatAnalyzer (hip_id self) v (bottom_threshold self)
    (min_frames_below self) (require_marker self) (state self)
    (rep_count self) (_below_frame_counter self).

Definition set_bottom_threshold (v : Z) (self : SquatAnalyzer) : SquatAnalyzer :=
  mkSquatAnalyzer (hip_id self) (top_threshold self) v
    (min_frames_below self) (require_marker self) (state self)
    (rep_count self) (_below_frame_counter self).

Definition set_require_marker (v : bool) (self : SquatAnalyzer) : SquatAnalyzer :=
  mkSquatAnalyzer (hip_id self) (top_threshold self) (bottom_threshold self)
    (min_frames_below self) v (state self)
    (rep_count self) (_below_frame_counter self).

Definition set_state (v : string) (self : SquatAnalyzer) : SquatAnalyzer :=
  mkSquatAnalyzer (hip_id self) (top_threshold self) (bottom_threshold self)
    (min_frames_below self) (require_marker self) v
    (rep_count self) (_below_frame_counter self).

Definition set_rep_count (v : Z) (self : SquatAnalyzer) : SquatAnalyzer :=
  mkSquatAnalyzer (hip_id self) (top_threshold self) (bottom_threshold self)
    (min_frames_below self) (require_marker self) (state self)
    v (_below_frame_counter self).

Definition set_below_frame_counter (v : Z) (self : SquatAnalyzer) : SquatAnalyzer :=
  mkSquatAnalyzer (hip_id self) (top_threshold self) (bottom_threshold self)
    (min_frames_below self) (require_marker self) (state self)
    (rep_count self) v.

(** ** Operations *)

(** [int(x)] at an argument that already is an [int]. *)
Definition int (x : Z) : Z := x.

(** [SquatAnalyzer.__init__]. *)
Definition init (hip top bottom frames : Z) (require : bool) : SquatAnalyzer :=
  {| hip_id := hip;
     top_threshold := top;
     bottom_threshold := bottom;
     min_frames_below := Z.max 1 (int frames);
     require_marker := require;
     state := "above";
     rep_count := 0;
     _below_frame_counter := 0 |}.

(** The [SquatResult(...)] built at the end of [update] from the fields of
    the analyzer as they are at that point. *)
Definition result_of (self : SquatAnalyzer) (fired : bool) (d : option Z)
    (text : string) : SquatResult.t :=
  SquatResult.mk (rep_count self) fired d (state self) text.

(** [SquatAnalyzer.update]: the analyzer after the call and the result. *)
Definition update (self : SquatAnalyzer) (markers : gmap Z Marker)
    : SquatAnalyzer * SquatResult.t :=
  match markers !! hip_id self with
  | None =>
      if require_marker self
      then (self, result_of self false None "Hip marker not detected")
      else (self, result_of self false None "No marker (ignored)")
  | Some entry =>
      let '(_, hip_y) := center entry in
      let depth := hip_y in
      if String.eqb (state self) "above" then
        let self1 :=
          if hip_y >=? bottom_threshold self
          then set_below_frame_counter (_below_frame_counter self + 1) self
          else set_below_frame_counter 0 self in
        if _below_frame_counter self1 >=? min_frames_below self1 then
          let self2 := set_below_frame_counter 0 (set_state "below" self1) in
          (self2, result_of self2 false (Some depth) "Reached depth (below)")
        else
          (self1, result_of self1 false (Some depth) "Above / going down")
      else if String.eqb (state self) "below" then
        if hip_y <=? top_threshold self then
          let self1 := set_rep_count (rep_count self + 1) (set_state "above" self) in
          (self1, result_of self1 true (Some depth) "Rep completed!")
        else
          (self, result_of self false (Some depth) "Below / coming up")
      else
        let self1 := set_state "above" self in
        (self1, result_of self1 false (Some depth) "State reset")
  end.

(** [SquatAnalyzer.reset]. *)
Definition reset (self : SquatAnalyzer) : SquatAnalyzer :=
  set_below_frame_counter 0 (set_rep_count 0 (set_state "above" self)).

(** ** Sequences of frames and calls *)

(** The frame loop of [test_run.py] and [gui_app.py]: one [update] per frame,
    the results collected in order. *)
Fixpoint run (self : SquatAnalyzer) (frames : list (gmap Z Marker))
    : SquatAnalyzer * list SquatResult.t :=
  match frames with
  | [] => (self, [])
  | markers :: rest =>
      let '(self1, r) := update self markers in
      let '(self2, rs) := run self1 rest in
      (self2, r :: rs)
  end.

(** What the application does to an analyzer after it was constructed: the
    frame loop calls [update], the reset button [reset], and the two sliders
    assign the thresholds. *)
Inductive call : Type :=
  | CallUpdate (markers : gmap Z Marker)
  | CallReset
  | AssignTop (v : Z)
  | AssignBottom (v : Z).

Definition exec (self : SquatAnalyzer) (c : call) : SquatAnalyzer :=
  match c with
  | CallUpdate markers => (update self markers).1
  | CallReset => reset self
  | AssignTop v => set_top_threshold v self
  | AssignBottom v => set_bottom_threshold v self
  end.

Inductive reachable : SquatAnalyzer -> Prop :=
  | reachable_init hip top bottom frames require :
      reachable (init hip top bottom frames require)
  | reachable_exec self c :
      reachable self -> reachable (exec self c).

(** The hip reading of a frame, [markers[hip_id]["center"][1]], when the
    marker was detected. *)
Definition reading (self : SquatAnalyzer) (markers : gmap Z Marker) : option Z :=
  (fun entry => (center entry).2) <$> (markers !! hip_id self).

(** A frame in which only the marker [id] is seen, at height [y]. *)
Definition frame_at (id y : Z) : gmap Z Marker := {[ id := mkMarker (0, y) ]}.

Definition scenario_analyzer : SquatAnalyzer := init 0 200 350 2 true.

Definition phases (rs : list SquatResult.t) : list string :=
  map SquatResult.state rs.

Definition events (rs : list SquatResult.t) : list bool :=
  map SquatResult.new_rep rs.

(** ** Counting over a run *)

(** A cycle is a Low-to-High transition when the analyzer enters it in state
    ["below"] and leaves it in state ["above"]. *)
Definition low_to_high (before after : SquatAnalyzer) : bool :=
  String.eqb (state before) "below" && String.eqb (state after) "above".

(** The number of Low-to-High transitions over a sequence of frames. *)
Fixpoint transitions (self : SquatAnalyzer) (frames : list (gmap Z Marker)) : nat :=
  match frames with
  | [] => 0%nat
  | markers :: rest =>
      let self1 := (update self markers).1 in
      ((if low_to_high self self1 then 1 else 0) + transitions self1 rest)%nat
  end.

(** A cycle is a High-to-Low transition when the analyzer enters it in state
    ["above"] and leaves it in state ["below"]. *)
Definition high_to_low (before after : SquatAnalyzer) : bool :=
  String.eqb (state before) "above" && String.eqb (state after) "below".

(** The number of High-to-Low transitions over a sequence of frames. *)
Fixpoint descents (self : SquatAnalyzer) (frames : list (gmap Z Marker)) : nat :=
  match frames with
  | [] => 0%nat
  | markers :: rest =>
      let self1 := (update self markers).1 in
      ((if high_to_low self self1 then 1 else 0) + descents self1 rest)%nat
  end.

(** 1 for an analyzer that is in state ["below"], in the middle of an
    excursion, and 0 otherwise. *)
Definition excursion_open (self : SquatAnalyzer) : nat :=
  if String.eqb (state self) "below" then 1%nat else 0%nat.

(** The number of results whose [new_rep] flag is set. *)
Definition fired (rs : list SquatResult.t) : nat :=
  count_occ bool_dec (events rs) true.

(** [rep_count] read along a run: before the first frame, then in each result. *)
Definition counts (self : SquatAnalyzer) (rs : list SquatResult.t) : list Z :=
  rep_count self :: map SquatResult.rep_count rs.

(** Adjacent entries of a list are related by [R]. *)
Fixpoint chain {A : Type} (R : A -> A -> Prop) (l : list A) : Prop :=
  match l with
  | x :: (y :: _) as tl => R x y /\ chain R tl
  | _ => True
  end.

(** ** Predicates on frames, states and results *)

(** A frame whose hip reading is at or past [bottom_threshold]: the test that
    advances the below-frame counter. *)
Definition deep (self : SquatAnalyzer) (markers : gmap Z Marker) : bool :=
  match reading self markers with
  | Some v => bottom_threshold self <=? v
  | None => false
  end.

(** A frame whose hip reading is short of [bottom_threshold]. *)
Definition shallow (self : SquatAnalyzer) (markers : gmap Z Marker) : bool :=
  match reading self markers with
  | Some v => v <? bottom_threshold self
  | None => false
  end.

(** The bounds the below-frame counter keeps. *)
Definition invariant (self : SquatAnalyzer) : Prop :=
  0 <= _below_frame_counter self < min_frames_below self
  /\ (state self = "below" -> _below_frame_counter self = 0).

#[global] Instance invariant_dec self : Decision (invariant self).
Proof. unfold invariant. apply _. Defined.

(** Two results that agree on every field but [status_text]. *)
Definition same_but_text (r1 r2 : SquatResult.t) : Prop :=
  SquatResult.rep_count r1 = SquatResult.rep_count r2
  /\ SquatResult.new_rep r1 = SquatResult.new_rep r2
  /\ SquatResult.depth r1 = SquatResult.depth r2
  /\ SquatResult.state r1 = SquatResult.state r2.

(** The status text of a frame without the hip marker, by [require_marker]. *)
Definition absent_text (require : bool) : string :=
  if require then "Hip marker not detected" else "No marker (ignored)".

(** The reading of C2 that quantifies over every analyzer in state ["above"],
    whatever its below-frame counter: [k - 1] deep frames and then a shallow
    one leave it in ["above"] with the counter at 0. *)
Definition debounce_as_stated : Prop :=
  forall (self : SquatAnalyzer) (deep_frames : list (gmap Z Marker))
         (last : gmap Z Marker),
    state self = "above" ->
    1 <= min_frames_below self ->
    Forall (fun m => deep self m = true) deep_frames ->
    Z.of_nat (length deep_frames) = min_frames_below self - 1 ->
    shallow self last = true ->
    state (run self (deep_frames ++ [last])).1 = "above"
    /\ _below_frame_counter (run self (deep_frames ++ [last])).1 = 0.

(** The reading of C8 as stated: the value of [require_marker] cannot be
    told from the results of a run. *)
Definition require_marker_unobservable : Prop :=
  forall (self : SquatAnalyzer) (require : bool)
         (frames : list (gmap Z Marker)),
    (run (set_require_marker require self) frames).2 = (run self frames).2.

(** [hip_id in markers], for the marker [id]. *)
Definition seen (id : Z) (markers : gmap Z Marker) : bool :=
  match markers !! id with
  | Some _ => true
  | None => false
  end.

(** A result that carries a depth, that of a frame with the hip marker. *)
Definition has_depth (r : SquatResult.t) : bool :=
  match SquatResult.depth r with
  | Some _ => true
  | None => false
  end.

(** A frame whose hip reading is at or above the standing line,
    [hip_y <= top_threshold]: the test that completes a repetition. *)
Definition standing (self : SquatAnalyzer) (markers : gmap Z Marker) : bool :=
  match reading self markers with
  | Some v => v <=? top_threshold self
  | None => false
  end.

(** ** The window of [gui_app.py] *)

(** What [update_loop] draws on the frame before showing it: the ids of the
    markers of the frame while running, the word PAUSED otherwise. *)
Inductive overlay : Type :=
  | OverlayIds (markers : gmap Z Marker)
  | OverlayPaused.

(** The fields of [SquatApp] that its methods read or write, over any type
    of camera images.  The three [StringVar]s and the button are held by
    their text, the video label by the image and overlay it shows, and the
    sound module by the number of calls of [play_valid_squat_sound]. *)
Record SquatApp (Frame : Type) : Type := mkSquatApp {
  analyzer : SquatAnalyzer;
  delay_ms : Z;
  running : bool;
  rep_var : string;
  state_var : string;
  status_var : string;
  start_stop_btn : string;
  video_label : option (Frame * overlay);
  sounds_played : nat
}.

Arguments mkSquatApp {Frame}.
Arguments analyzer {Frame}.
Arguments delay_ms {Frame}.
Arguments running {Frame}.
Arguments rep_var {Frame}.
Arguments state_var {Frame}.
Arguments status_var {Frame}.
Arguments start_stop_btn {Frame}.
Arguments video_label {Frame}.
Arguments sounds_played {Frame}.

(** [int(x)] at a float: the integer part, rounding toward zero.  A finite
    float is carried as the rational it is. *)
Definition int_of_float (x : Q) : Z := Z.quot (Qnum x) (Z.pos (Qden x)).

(** [max(1, int(1000 / fps))] of [SquatApp.__init__].  The division raises
    [ZeroDivisionError] at [fps = 0]; elsewhere the quotient of the two
    integers, rounded to a float and then cut by [int], is the integer
    quotient rounded toward zero. *)
Definition frame_delay (fps : Z) : option Z :=
  if fps =? 0 then None else Some (Z.max 1 (Z.quot 1000 fps)).

Section Window.
Context {Frame : Type}.

(** [SquatApp.__init__], for the analyzer and the [fps] it is given. *)
Definition app_init (a : SquatAnalyzer) (fps : Z) : option (SquatApp Frame) :=
  match frame_delay fps with
  | None => None
  | Some delay =>
      Some {| analyzer := a;
              delay_ms := delay;
              running := true;
              rep_var := "Reps: 0";
              state_var := "State: -";
              status_var := "Status: -";
              start_stop_btn := "Pause";
              video_label := None;
              sounds_played := 0 |}
  end.

(** [SquatApp.toggle_running]. *)
Definition toggle_running (app : SquatApp Frame) : SquatApp Frame :=
  let running1 := negb (running app) in
  {| analyzer := analyzer app;
     delay_ms := delay_ms app;
     running := running1;
     rep_var := rep_var app;
     state_var := state_var app;
     status_var := status_var app;
     start_stop_btn := if running1 then "Pause" else "Start";
     video_label := video_label app;
     sounds_played := sounds_played app |}.

(** [SquatApp.reset_reps]. *)
Definition reset_reps (app : SquatApp Frame) : SquatApp Frame :=
  {| analyzer := reset (analyzer app);
     delay_ms := delay_ms app;
     running := running app;
     rep_var := "Reps: 0";
     state_var := "State: -";
     status_var := "Status: -";
     start_stop_btn := start_stop_btn app;
     video_label := video_label app;
     sounds_played := sounds_played app |}.

(** Assigning the [analyzer] field's object in place. *)
Definition with_analyzer (a : SquatAnalyzer) (app : SquatApp Frame)
    : SquatApp Frame :=
  {| analyzer := a;
     delay_ms := delay_ms app;
     running := running app;
     rep_var := rep_var app;
     state_var := state_var app;
     status_var := status_var app;
     start_stop_btn := start_stop_btn app;
     video_label := video_label app;
     sounds_played := sounds_played app |}.

(** [SquatApp._on_top_change], with the value the top slider holds. *)
Definition _on_top_change (slider : Q) (app : SquatApp Frame) : SquatApp Frame :=
  with_analyzer (set_top_threshold (int_of_float slider) (analyzer app)) app.

(** [SquatApp._on_bottom_change], with the value the bottom slider holds. *)
Definition _on_bottom_change (slider : Q) (app : SquatApp Frame)
    : SquatApp Frame :=
  with_analyzer (set_bottom_threshold (int_of_float slider) (analyzer app)) app.

(** [SquatApp.update_loop], for the pair that
    [camera.get_frame_and_markers()] returned. *)
Definition update_loop (app : SquatApp Frame) (frame : option Frame)
    (markers : gmap Z Marker) : SquatApp Frame :=
  match frame with
  | Some image =>
      if running app then
        let '(analyzer1, result) := update (analyzer app) markers in
        {| analyzer := analyzer1;
           delay_ms := delay_ms app;
           running := running app;
           rep_var := "Reps: " +:+ pretty (SquatResult.rep_count result);
           state_var := "State: " +:+ SquatResult.state result;
           status_var := "Status: " +:+ SquatResult.status_text result;
           start_stop_btn := start_stop_btn app;
           video_label := Some (image, OverlayIds markers);
           sounds_played :=
             if SquatResult.new_rep result
             then S (sounds_played app) else sounds_played app |}
      else
        {| analyzer := analyzer app;
           delay_ms := delay_ms app;
           running := running app;
           rep_var := rep_var app;
           state_var := state_var app;
           status_var := status_var app;
           start_stop_btn := start_stop_btn app;
           video_label := Some (image, OverlayPaused);
           sounds_played := sounds_played app |}
  | None => app
  end.

(** What happens to the window between its construction and its closing:
    timer ticks with what the camera returned, clicks on the two buttons, and
    moves of the two sliders. *)
Inductive gui_event : Type :=
  | Tick (frame : option Frame) (markers : gmap Z Marker)
  | ClickStartStop
  | ClickReset
  | MoveTop (slider : Q)
  | MoveBottom (slider : Q).

Definition handle (app : SquatApp Frame) (e : gui_event) : SquatApp Frame :=
  match e with
  | Tick frame markers => update_loop app frame markers
  | ClickStartStop => toggle_running app
  | ClickReset => reset_reps app
  | MoveTop slider => _on_top_change slider app
  | MoveBottom slider => _on_bottom_change slider app
  end.

Definition handle_all (app : SquatApp Frame) (events : list gui_event)
    : SquatApp Frame :=
  fold_left handle events app.

Definition is_tick (e : gui_event) : bool :=
  match e with Tick _ _ => true | _ => false end.

Definition is_reset (e : gui_event) : bool :=
  match e with ClickReset => true | _ => false end.

(** The texts of the window agree with what they display: the repetition
    label with the count of the analyzer, and the button with [running]. *)
Definition labels_agree (app : SquatApp Frame) : Prop :=
  rep_var app = "Reps: " +:+ pretty (rep_count (analyzer app))
  /\ start_stop_btn app = (if running app then "Pause" else "Start")
  /\ (state_var app = "State: -"
      \/ state_var app = "State: " +:+ state (analyzer app)).

End Window.

(** ** The camera of [camera.py] *)

Section CameraModel.
Context {Frame Corners : Type}.

(** The centre [(int(np.mean(pts[:, 0])), int(np.mean(pts[:, 1])))] of the
    four corner points of a detection, computed by numpy. *)
Variable centre : Corners -> Z * Z.

(** The drawing of the detections on the frame, done by OpenCV. *)
Variable draw : list (Z * Corners) -> Frame -> Frame.

(** The loop of [get_frame_and_markers] that fills [markers]: one insertion
    per detection, in detection order, under the key [int(marker_id)].
    [detectMarkers] returns the ids and the corner arrays as two arrays of
    one length; they are paired here. *)
Definition markers_of (detections : list (Z * Corners)) : gmap Z Marker :=
  fold_left (fun markers d => <[d.1 := mkMarker (centre d.2)]> markers)
    detections ∅.

(** [Camera.get_frame_and_markers], for what [cap.read()] gave ([None] when
    [ret] is false) and what [detectMarkers] found on the frame ([None] for
    [ids is None]). *)
Definition get_frame_and_markers (read : option Frame)
    (ids : option (list (Z * Corners))) : option Frame * gmap Z Marker :=
  match read with
  | None => (None, ∅)
  | Some frame =>
      match ids with
      | Some detections => (Some (draw detections frame), markers_of detections)
      | None => (Some frame, ∅)
      end
  end.

End CameraModel.

(** The detections of the marker [id], in detection order. *)
Definition detections_of {Corners : Type} (id : Z)
    (detections : list (Z * Corners)) : list (Z * Corners) :=
  List.filter (fun d => d.1 =? id) detections.

(** ** The loop of [test_run.py] *)

(** [cv2.waitKey(1) & 0xFF == ord("q")]. *)
Definition quit_pressed (key : Z) : bool :=
  Z.land key 255 =? Z.of_N (Ascii.N_of_ascii "q"%char).

(** The [while True] loop of [main], followed over the iterations listed:
    each one is the frame and markers the camera returns and the key code
    [waitKey] returns.  The analyzer after the loop and the results it
    displayed. *)
Fixpoint test_loop {Frame : Type} (self : SquatAnalyzer)
    (ticks : list (option Frame * gmap Z Marker * Z))
    : SquatAnalyzer * list SquatResult.t :=
  match ticks with
  | [] => (self, [])
  | (frame, markers, key) :: rest =>
      match frame with
      | None => (self, [])
      | Some _ =>
          let '(self1, result) := update self markers in
          if quit_pressed key then (self1, [result])
          else
            let '(self2, results) := test_loop self1 rest in
            (self2, result :: results)
      end
  end.

(** An iteration that reaches the end of the loop body and goes round. *)
Definition goes_on {Frame : Type} (tick : option Frame * gmap Z Marker * Z)
    : bool :=
  match tick with
  | (Some _, _, key) => negb (quit_pressed key)
  | (None, _, _) => false
  end.

(** ** The constructor call *)

(** The values a caller can pass as [min_frames_below] that [int()] tells
    apart: an [int], a [bool], a finite [float] (carried as the rational it
    is), the floats [nan] and [inf], and [None]. *)
Inductive pyval : Type :=
  | PyInt (z : Z)
  | PyBool (b : bool)
  | PyFloat (x : Q)
  | PyNan
  | PyInf (negative : bool)
  | PyNone.

Inductive py_error : Type :=
  | TypeError
  | ValueError
  | OverflowError.

(** A call either returns or raises. *)
Inductive outcome (A : Type) : Type :=
  | Returned (a : A)
  | Raised (e : py_error).

Arguments Returned {A}.
Arguments Raised {A}.

(** The builtin [int(x)]: the integer itself, 0 or 1 for a [bool], the
    integer part of a finite float, and an exception elsewhere. *)
Definition py_int (x : pyval) : outcome Z :=
  match x with
  | PyInt z => Returned z
  | PyBool b => Returned (if b then 1 else 0)
  | PyFloat q => Returned (int_of_float q)
  | PyNan => Raised ValueError
  | PyInf _ => Raised OverflowError
  | PyNone => Raised TypeError
  end.

(** The call [SquatAnalyzer(hip, top, bottom, frames, require)]: the only
    statement of [__init__] that can raise is the conversion
    [int(min_frames_below)]; once it has returned, the fields are those of
    [init] at the converted integer. *)
Definition construct (hip top bottom : Z) (frames : pyval) (require : bool)
    : outcome SquatAnalyzer :=
  match py_int frames with
  | Returned z => Returned (init hip top bottom z require)
  | Raised e => Raised e
  end.

(** ** The scenarios of the specification, run on the model *)

Example scenario_A :
  let '(self, rs) := run scenario_analyzer (map (frame_at 0) [100; 400; 400; 150]) in
  phases rs = ["above"; "above"; "below"; "above"]
  /\ events rs = [false; false; false; true]
  /\ rep_count self = 1.
Proof. vm_compute. done. Qed.

Example scenario_B :
  let '(self, rs) :=
    run scenario_analyzer (map (frame_at 0) [400; 100; 400; 400; 150]) in
  phases rs = ["above"; "above"; "above"; "below"; "above"]
  /\ rep_count self = 1.
Proof. vm_compute. done. Qed.

Example scenario_C :
  let absent : gmap Z Marker := ∅ in
  let '(self2, _) := run scenario_analyzer [frame_at 0 400; frame_at 0 400] in
  let '(self3, _) := update self2 absent in
  let '(self4, r4) := update self3 (frame_at 0 150) in
  self3 = self2 /\ rep_count self4 = 1 /\ SquatResult.new_rep r4 = true.
Proof. vm_compute. done. Qed.

Example scenario_D :
  let '(self, _) := run scenario_analyzer (map (frame_at 0) [100; 400; 400; 150]) in
  run (reset self) (map (frame_at 0) [400; 400; 150])
  = run scenario_analyzer (map (frame_at 0) [400; 400; 150]).
Proof. vm_compute. done. Qed.

(** ** The equations of [update], branch by branch *)

Section UpdateEquations.
Variable self : SquatAnalyzer.
Variable markers : gmap Z Marker.

Lemma reading_None : reading self markers = None <-> markers !! hip_id self = None.
Proof.
  unfold reading. destruct (markers !! hip_id self); simpl; split; congruence.
Qed.

Lemma update_absent :
  markers !! hip_id self = None ->
  update self markers =
    (self, result_of self false None
             (if require_marker self then "Hip marker not detected"
              else "No marker (ignored)")).
Proof.
  intros H. unfold update. rewrite H. by destruct (require_marker self).
Qed.

Lemma update_above v :
  reading self markers = Some v ->
  state self = "above" ->
  update self markers =
    let c := if v >=? bottom_threshold self
             then _below_frame_counter self + 1 else 0 in
    if c >=? min_frames_below self
    then let self2 := set_below_frame_counter 0
                        (set_state "below" (set_below_frame_counter c self)) in
         (self2, result_of self2 false (Some v) "Reached depth (below)")
    else let self1 := set_below_frame_counter c self in
         (self1, result_of self1 false (Some v) "Above / going down").
Proof.
  unfold reading, update. intros Hr Hs.
  destruct (markers !! hip_id self) as [[[cx cy]]|]; simpl in Hr; [|done].
  injection Hr as ->. rewrite Hs. simpl.
  by destruct (v >=? bottom_threshold self).
Qed.

Lemma update_below v :
  reading self markers = Some v ->
  state self = "below" ->
  update self markers =
    if v <=? top_threshold self
    then let self1 := set_rep_count (rep_count self + 1) (set_state "above" self) in
         (self1, result_of self1 true (Some v) "Rep completed!")
    else (self, result_of self false (Some v) "Below / coming up").
Proof.
  unfold reading, update. intros Hr Hs.
  destruct (markers !! hip_id self) as [[[cx cy]]|]; simpl in Hr; [|done].
  injection Hr as ->. by rewrite Hs.
Qed.

Lemma update_fallback v :
  reading self markers = Some v ->
  state self <> "above" ->
  state self <> "below" ->
  update self markers =
    (set_state "above" self,
     result_of (set_state "above" self) false (Some v) "State reset").
Proof.
  unfold reading, update. intros Hr Ha Hb.
  destruct (markers !! hip_id self) as [[[cx cy]]|]; simpl in Hr; [|done].
  injection Hr as ->.
  destruct (String.eqb_spec (state self) "above"); [done|].
  by destruct (String.eqb_spec (state self) "below").
Qed.
End UpdateEquations.

(** Case analysis on a call of [update]: absent marker, or a reading [v] in
    one of the three branches of the state test. *)
Ltac update_cases self markers :=
  let v := fresh "v" in
  let Hr := fresh "Hread" in
  let Hs := fresh "Hstate" in
  let Hs' := fresh "Hstate'" in
  destruct (reading self markers) as [v|] eqn:Hr;
  [ destruct (String.eqb_spec (state self) "above") as [Hs|Hs];
    [ rewrite (update_above self markers v Hr Hs)
    | destruct (String.eqb_spec (state self) "below") as [Hs'|Hs'];
      [ rewrite (update_below self markers v Hr Hs')
      | rewrite (update_fallback self markers v Hr Hs Hs') ] ]
  | apply reading_None in Hr; rewrite (update_absent self markers Hr) ].

(** Split the integer comparisons left in a goal after [update_cases]. *)
Ltac split_tests :=
  cbv zeta;
  repeat match goal with
  | |- context [?a >=? ?b] => destruct (Z.geb_spec a b)
  | |- context [?a <=? ?b] => destruct (Z.leb_spec a b)
  end; simpl in *.

(** ** Frame conditions of [update] *)

(** [update] never assigns a configuration field. *)
Lemma update_config self markers :
  let self' := (update self markers).1 in
  hip_id self' = hip_id self
  /\ top_threshold self' = top_threshold self
  /\ bottom_threshold self' = bottom_threshold self
  /\ min_frames_below self' = min_frames_below self
  /\ require_marker self' = require_marker self.
Proof. update_cases self markers; split_tests; done. Qed.

(** The result echoes the fields of the analyzer as they are after the call. *)
Lemma update_result_fields self markers :
  let '(self', r) := update self markers in
  SquatResult.rep_count r = rep_count self'
  /\ SquatResult.state r = state self'
  /\ SquatResult.depth r = reading self markers.
Proof. update_cases self markers; split_tests; done. Qed.

Lemma run_cons self markers rest :
  run self (markers :: rest) =
    ((run (update self markers).1 rest).1,
     (update self markers).2 :: (run (update self markers).1 rest).2).
Proof.
  simpl. destruct (update self markers) as [self1 r]; simpl.
  by destruct (run self1 rest).
Qed.

Lemma run_app self frames1 frames2 :
  run self (frames1 ++ frames2) =
    ((run (run self frames1).1 frames2).1,
     (run self frames1).2 ++ (run (run self frames1).1 frames2).2).
Proof.
  revert self. induction frames1 as [|m frames1 IH]; intros self.
  - simpl. by destruct (run self frames2).
  - rewrite <- app_comm_cons, !run_cons, IH. done.
Qed.

Lemma run_length self frames : length (run self frames).2 = length frames.
Proof.
  revert self. induction frames as [|m frames IH]; intros self; [done|].
  rewrite run_cons. simpl. by rewrite IH.
Qed.

(** ** States closed under the calls *)

Lemma update_state_closed self markers :
  state self = "above" \/ state self = "below" ->
  state (update self markers).1 = "above"
  \/ state (update self markers).1 = "below".
Proof. intros H. update_cases self markers; split_tests; auto. Qed.

Lemma exec_state_closed self c :
  state self = "above" \/ state self = "below" ->
  state (exec self c) = "above" \/ state (exec self c) = "below".
Proof.
  intros H. destruct c as [markers| |v|v]; simpl; auto.
  by apply update_state_closed.
Qed.

Lemma reachable_state_closed self :
  reachable self -> state self = "above" \/ state self = "below".
Proof.
  induction 1 as [|self c _ IH]; [by left|]. by apply exec_state_closed.
Qed.

(** ** The completion event *)

Lemma new_rep_low_to_high self markers :
  SquatResult.new_rep (update self markers).2
  = low_to_high self (update self markers).1.
Proof.
  unfold low_to_high.
  update_cases self markers; split_tests;
    try rewrite Hstate; try rewrite Hstate'; try done.
  destruct (String.eqb_spec (state self) "below") as [E|E]; [|done].
  rewrite E. done.
Qed.

Lemma fired_transitions self frames :
  fired (run self frames).2 = transitions self frames.
Proof.
  revert self. induction frames as [|m frames IH]; intros self; [done|].
  rewrite run_cons. unfold fired, events in *. simpl.
  rewrite <- IH, <- new_rep_low_to_high.
  by destruct (SquatResult.new_rep (update self m).2).
Qed.

(** Descents and ascents alternate: every excursion opened by a High-to-Low
    transition is either closed by one Low-to-High transition or still open. *)
Lemma update_balance self markers :
  state self = "above" \/ state self = "below" ->
  ((if high_to_low self (update self markers).1 then 1 else 0)
   + excursion_open self
   = (if low_to_high self (update self markers).1 then 1 else 0)
     + excursion_open (update self markers).1)%nat.
Proof.
  unfold high_to_low, low_to_high, excursion_open. intros H.
  update_cases self markers; split_tests;
    try rewrite Hstate; try rewrite Hstate'; try done.
  destruct H as [E|E]; by rewrite E.
Qed.

Lemma run_balance frames : forall self,
  state self = "above" \/ state self = "below" ->
  (descents self frames + excursion_open self
   = transitions self frames + excursion_open (run self frames).1)%nat.
Proof.
  induction frames as [|m frames IH]; intros self H; [simpl; lia|].
  rewrite run_cons. simpl.
  pose proof (update_balance self m H) as B.
  pose proof (IH _ (update_state_closed self m H)) as B'.
  lia.
Qed.

(** C1: on every cycle of a reachable analyzer, [new_rep] is set exactly when
    the call takes the state from ["below"] to ["above"].  So over any run
    the number of events equals the number of Low-to-High transitions, each
    event on the cycle of its transition, and that number is the number of
    completed excursions: the High-to-Low transitions of the run, plus the
    excursion open at its start, less the one still open at its end. *)
Theorem new_rep_iff_low_to_high (self : SquatAnalyzer)
    (markers : gmap Z Marker) (frames : list (gmap Z Marker)) :
  reachable self ->
  (SquatResult.new_rep (update self markers).2 = true
   <-> state self = "below" /\ state (update self markers).1 = "above")
  /\ fired (run self frames).2 = transitions self frames
  /\ (descents self frames + excursion_open self
      = fired (run self frames).2 + excursion_open (run self frames).1)%nat.
Proof.
  intros R. apply reachable_state_closed in R.
  split; [|split].
  - rewrite new_rep_low_to_high. unfold low_to_high.
    rewrite andb_true_iff, !String.eqb_eq. done.
  - apply fired_transitions.
  - rewrite fired_transitions. by apply run_balance.
Qed.

Lemma new_rep_iff_low_to_high_witness :
  let self := exec scenario_analyzer (CallUpdate (frame_at 0 400)) in
  let markers := frame_at 0 400 in
  let frames := map (frame_at 0) [400; 150; 400; 400; 100; 360] in
  (SquatResult.new_rep (update self markers).2 = true
   <-> state self = "below" /\ state (update self markers).1 = "above")
  /\ fired (run self frames).2 = transitions self frames
  /\ (descents self frames + excursion_open self
      = fired (run self frames).2 + excursion_open (run self frames).1)%nat.
Proof.
  apply (new_rep_iff_low_to_high
           (exec scenario_analyzer (CallUpdate (frame_at 0 400)))
           (frame_at 0 400)
           (map (frame_at 0) [400; 150; 400; 400; 100; 360])).
  apply reachable_exec, reachable_init.
Defined.

Example two_excursions :
  let frames := map (frame_at 0) [400; 400; 150; 400; 400; 100; 360] in
  events (run scenario_analyzer frames).2
  = [false; false; true; false; false; true; false]
  /\ descents scenario_analyzer frames = 2%nat
  /\ transitions scenario_analyzer frames = 2%nat.
Proof. vm_compute. done. Qed.

(** After an event the analyzer is in state ["above"], so the next cycle
    cannot fire again: a descent has to come first. *)
Lemma no_event_right_after_event self markers markers' :
  SquatResult.new_rep (update self markers).2 = true ->
  SquatResult.new_rep (update (update self markers).1 markers').2 = false.
Proof.
  rewrite !new_rep_low_to_high. unfold low_to_high.
  rewrite andb_true_iff, !String.eqb_eq. intros [_ ->]. done.
Qed.

(** ** The ascent edge *)

(** C3: in state ["below"], one frame with a reading [v <= top_threshold]
    takes the analyzer to ["above"], adds exactly one to [rep_count] and sets
    [new_rep]; the below-frame counter plays no part and is left as it was. *)
Theorem ascent_not_debounced (self : SquatAnalyzer) (markers : gmap Z Marker)
    (v : Z) :
  state self = "below" ->
  reading self markers = Some v ->
  v <= top_threshold self ->
  let '(self', r) := update self markers in
  state self' = "above"
  /\ rep_count self' = rep_count self + 1
  /\ _below_frame_counter self' = _below_frame_counter self
  /\ SquatResult.new_rep r = true
  /\ SquatResult.state r = "above"
  /\ SquatResult.rep_count r = rep_count self + 1.
Proof.
  intros Hs Hr Hv. rewrite (update_below self markers v Hr Hs).
  destruct (Z.leb_spec v (top_threshold self)); [done | lia].
Qed.

Lemma ascent_not_debounced_witness :
  let self := set_below_frame_counter 7 (set_state "below" scenario_analyzer) in
  let '(self', r) := update self (frame_at 0 150) in
  state self' = "above"
  /\ rep_count self' = rep_count self + 1
  /\ _below_frame_counter self' = _below_frame_counter self
  /\ SquatResult.new_rep r = true
  /\ SquatResult.state r = "above"
  /\ SquatResult.rep_count r = rep_count self + 1.
Proof.
  apply (ascent_not_debounced
           (set_below_frame_counter 7 (set_state "below" scenario_analyzer))
           (frame_at 0 150) 150).
  - reflexivity.
  - reflexivity.
  - vm_compute. discriminate.
Defined.

(** ** Frames without the hip marker *)

(** C5: when [hip_id] is not a key of the marker dictionary, [update] returns
    the analyzer as it was (state, count and counter included), and the
    result has [new_rep] false, no depth, and the state and count currently
    held; this is so for either value of [require_marker]. *)
Theorem absent_marker_inert (self : SquatAnalyzer) (markers : gmap Z Marker) :
  markers !! hip_id self = None ->
  let '(self', r) := update self markers in
  self' = self
  /\ state self' = state self
  /\ rep_count self' = rep_count self
  /\ _below_frame_counter self' = _below_frame_counter self
  /\ SquatResult.new_rep r = false
  /\ SquatResult.depth r = None
  /\ SquatResult.state r = state self
  /\ SquatResult.rep_count r = rep_count self.
Proof. intros H. rewrite (update_absent self markers H). done. Qed.

Lemma absent_marker_inert_witness :
  let self := set_require_marker false
                (set_below_frame_counter 1 scenario_analyzer) in
  let '(self', r) := update self (frame_at 3 400) in
  self' = self
  /\ state self' = state self
  /\ rep_count self' = rep_count self
  /\ _below_frame_counter self' = _below_frame_counter self
  /\ SquatResult.new_rep r = false
  /\ SquatResult.depth r = None
  /\ SquatResult.state r = state self
  /\ SquatResult.rep_count r = rep_count self.
Proof.
  apply (absent_marker_inert
           (set_require_marker false
              (set_below_frame_counter 1 scenario_analyzer))
           (frame_at 3 400)).
  reflexivity.
Defined.

(** ** Reset *)

(** C6: [reset] puts the state at ["above"], the count and the counter at 0,
    keeps the five configuration fields, and any positive number of
    consecutive calls gives the analyzer that one call gives. *)
Theorem reset_idempotent (self : SquatAnalyzer) (n : nat) :
  state (reset self) = "above"
  /\ rep_count (reset self) = 0
  /\ _below_frame_counter (reset self) = 0
  /\ hip_id (reset self) = hip_id self
  /\ top_threshold (reset self) = top_threshold self
  /\ bottom_threshold (reset self) = bottom_threshold self
  /\ min_frames_below (reset self) = min_frames_below self
  /\ require_marker (reset self) = require_marker self
  /\ reset (reset self) = reset self
  /\ Nat.iter (S n) reset self = reset self.
Proof.
  repeat split.
  induction n as [|n IH]; [done|].
  rewrite Nat.iter_succ, IH. done.
Qed.

(** ** Construction *)

(** C9: for every integer passed as [min_frames_below], zero and negative
    ones included, the constructor call returns (it raises nothing) and the
    analyzer it returns stores the larger of 1 and that integer as debounce
    length: a value that is at least 1, at least the argument, and one of
    the two. *)
Theorem init_min_frames_below (hip top bottom frames : Z) (require : bool) :
  exists self,
    construct hip top bottom (PyInt frames) require = Returned self
    /\ min_frames_below self = Z.max 1 frames
    /\ 1 <= min_frames_below self
    /\ frames <= min_frames_below self
    /\ (min_frames_below self = 1 \/ min_frames_below self = frames).
Proof.
  exists (init hip top bottom frames require).
  split; [done|]. unfold init, int. cbn [min_frames_below]. lia.
Qed.

Example construct_negative_frames :
  construct 0 200 350 (PyInt (-3)) true = Returned (init 0 200 350 1 true).
Proof. reflexivity. Qed.

Example construct_float_frames :
  construct 0 200 350 (PyFloat (27 # 10)) true
  = Returned (init 0 200 350 2 true).
Proof. reflexivity. Qed.

Example construct_none_frames :
  construct 0 200 350 PyNone true = Raised TypeError.
Proof. reflexivity. Qed.

Example construct_nan_frames :
  construct 0 200 350 PyNan true = Raised ValueError.
Proof. reflexivity. Qed.

Example zero_frames_switch_on_first_deep_frame :
  phases (run (init 0 200 350 0 true) [frame_at 0 400]).2 = ["below"].
Proof. vm_compute. done. Qed.

Example init_zero_frames : min_frames_below (init 0 200 350 0 true) = 1.
Proof. reflexivity. Qed.

Example init_negative_frames : min_frames_below (init 0 200 350 (-3) true) = 1.
Proof. reflexivity. Qed.

Example init_five_frames : min_frames_below (init 0 200 350 5 true) = 5.
Proof. reflexivity. Qed.

(** ** The repetition count *)

Lemma update_rep_count self markers :
  rep_count (update self markers).1
  = rep_count self
    + (if SquatResult.new_rep (update self markers).2 then 1 else 0).
Proof. update_cases self markers; split_tests; lia. Qed.

Lemma update_rep_count_step self markers :
  rep_count self <= rep_count (update self markers).1 <= rep_count self + 1.
Proof.
  rewrite update_rep_count.
  destruct (SquatResult.new_rep (update self markers).2); lia.
Qed.

Lemma update_result_rep_count self markers :
  SquatResult.rep_count (update self markers).2
  = rep_count (update self markers).1.
Proof.
  pose proof (update_result_fields self markers) as H.
  destruct (update self markers). tauto.
Qed.

Lemma run_counts_chain self frames :
  chain (fun a b => a <= b <= a + 1) (counts self (run self frames).2).
Proof.
  revert self. induction frames as [|m frames IH]; intros self; [done|].
  rewrite run_cons. unfold counts in *. simpl. split.
  - rewrite update_result_rep_count. apply update_rep_count_step.
  - rewrite update_result_rep_count. apply IH.
Qed.

(** Over a run the count grows by the number of events fired. *)
Lemma run_rep_count self frames :
  rep_count (run self frames).1
  = rep_count self + Z.of_nat (fired (run self frames).2).
Proof.
  revert self. induction frames as [|m frames IH]; intros self.
  - simpl. unfold fired. simpl. lia.
  - rewrite run_cons. simpl. rewrite IH, update_rep_count.
    unfold fired, events. simpl.
    destruct (SquatResult.new_rep (update self m).2); simpl; lia.
Qed.

Lemma fired_le_length rs : (fired rs <= length rs)%nat.
Proof.
  unfold fired, events. rewrite <- (length_map SquatResult.new_rep rs).
  apply count_occ_bound.
Qed.

(** C4: for every analyzer state and every sequence of frames, with or
    without the hip marker, one [update] leaves [rep_count] where it was or
    adds one to it, and the counts read along a run (the initial one, then
    the one in each result) never decrease and never jump by more than one;
    the final count lies between the initial one and the initial one plus the
    number of frames. *)
Theorem rep_count_monotone (self : SquatAnalyzer) (markers : gmap Z Marker)
    (frames : list (gmap Z Marker)) :
  rep_count self <= rep_count (update self markers).1 <= rep_count self + 1
  /\ SquatResult.rep_count (update self markers).2
     = rep_count (update self markers).1
  /\ chain (fun a b => a <= b <= a + 1) (counts self (run self frames).2)
  /\ rep_count self <= rep_count (run self frames).1
     <= rep_count self + Z.of_nat (length frames).
Proof.
  split; [apply update_rep_count_step|].
  split; [apply update_result_rep_count|].
  split; [apply run_counts_chain|].
  rewrite run_rep_count.
  pose proof (fired_le_length (run self frames).2) as H.
  rewrite run_length in H. lia.
Qed.

(** ** Reachable states *)

(** The text ["State reset"] is produced by the fallback branch only. *)
Lemma state_reset_text self markers :
  SquatResult.status_text (update self markers).2 = "State reset" ->
  state self <> "above" /\ state self <> "below".
Proof.
  update_cases self markers; split_tests; try done.
  by destruct (require_marker self).
Qed.

(** C7: an analyzer obtained from a constructed one by any sequence of
    [update] and [reset] calls (and of the threshold assignments the sliders
    make) has state ["above"] or ["below"]; so no [update] on it takes the
    fallback branch, whose mark is the status text ["State reset"]. *)
Theorem reachable_two_states (self : SquatAnalyzer) (markers : gmap Z Marker) :
  reachable self ->
  (state self = "above" \/ state self = "below")
  /\ SquatResult.status_text (update self markers).2 <> "State reset".
Proof.
  intros H. apply reachable_state_closed in H. split; [done|].
  intros Ht. apply state_reset_text in Ht. tauto.
Qed.

Lemma reachable_two_states_witness :
  let self :=
    exec (exec (exec scenario_analyzer (CallUpdate (frame_at 0 400)))
               (CallUpdate (frame_at 0 400)))
         CallReset in
  (state self = "above" \/ state self = "below")
  /\ SquatResult.status_text (update self (frame_at 0 400)).2 <> "State reset".
Proof.
  apply (reachable_two_states
           (exec (exec (exec scenario_analyzer (CallUpdate (frame_at 0 400)))
                       (CallUpdate (frame_at 0 400)))
                 CallReset)
           (frame_at 0 400)).
  apply reachable_exec, reachable_exec, reachable_exec.
  apply reachable_init.
Defined.

(** ** The counter invariant *)

Lemma invariant_init hip top bottom frames require :
  invariant (init hip top bottom frames require).
Proof. unfold invariant, init, int. simpl. lia. Qed.

Lemma invariant_update self markers :
  invariant self -> invariant (update self markers).1.
Proof.
  unfold invariant. intros [Hc Hb].
  update_cases self markers; split_tests;
    (split; [lia | intros E; try rewrite Hstate in E; try done; auto]).
Qed.

Lemma invariant_reset self : invariant self -> invariant (reset self).
Proof. unfold invariant, reset. simpl. lia. Qed.

Lemma invariant_exec self c : invariant self -> invariant (exec self c).
Proof.
  destruct c as [markers| |v|v]; simpl;
    auto using invariant_update, invariant_reset.
Qed.

Lemma reachable_invariant self : reachable self -> invariant self.
Proof.
  induction 1 as [|self c _ IH]; [apply invariant_init|].
  by apply invariant_exec.
Qed.

(** C10: [0 <= _below_frame_counter < min_frames_below], with the counter at
    0 whenever the state is ["below"], holds of every constructed analyzer
    and, when it holds before an [update] or a [reset], it holds after. *)
Theorem invariant_preserved (hip top bottom frames : Z) (require : bool)
    (self : SquatAnalyzer) (markers : gmap Z Marker) :
  invariant self ->
  invariant (init hip top bottom frames require)
  /\ invariant (update self markers).1
  /\ invariant (reset self).
Proof.
  intros H. split; [apply invariant_init|].
  split; [by apply invariant_update | by apply invariant_reset].
Qed.

Lemma invariant_preserved_witness :
  let self := set_below_frame_counter 1 scenario_analyzer in
  invariant (init 0 200 350 (-4) false)
  /\ invariant (update self (frame_at 0 400)).1
  /\ invariant (reset self).
Proof.
  apply (invariant_preserved 0 200 350 (-4) false
           (set_below_frame_counter 1 scenario_analyzer) (frame_at 0 400)).
  unfold invariant, set_below_frame_counter, scenario_analyzer, init, int.
  simpl. split; [lia | discriminate].
Defined.

(** ** The descent edge and its debounce *)

Lemma deep_reading self markers :
  deep self markers = true ->
  exists v, reading self markers = Some v /\ bottom_threshold self <= v.
Proof.
  unfold deep. destruct (reading self markers) as [v|]; [|done].
  intros H. exists v. split; [done|]. by apply Z.leb_le.
Qed.

Lemma shallow_reading self markers :
  shallow self markers = true ->
  exists v, reading self markers = Some v /\ v < bottom_threshold self.
Proof.
  unfold shallow. destruct (reading self markers) as [v|]; [|done].
  intros H. exists v. split; [done|]. by apply Z.ltb_lt.
Qed.

Lemma set_below_frame_counter_id self c :
  c = _below_frame_counter self -> set_below_frame_counter c self = self.
Proof. intros ->. by destruct self. Qed.

(** A deep frame that does not yet complete the debounce: only the counter
    moves. *)
Lemma update_deep_waiting self markers :
  state self = "above" ->
  deep self markers = true ->
  _below_frame_counter self + 1 < min_frames_below self ->
  (update self markers).1
  = set_below_frame_counter (_below_frame_counter self + 1) self
  /\ SquatResult.state (update self markers).2 = "above"
  /\ SquatResult.new_rep (update self markers).2 = false.
Proof.
  intros Hs Hd Hc. apply deep_reading in Hd as (v & Hr & Hv).
  rewrite (update_above self markers v Hr Hs). split_tests; try lia. done.
Qed.

(** A deep frame that completes the debounce: the state switches, the
    counter restarts, and neither the count nor the event flag moves. *)
Lemma update_deep_switch self markers :
  state self = "above" ->
  deep self markers = true ->
  min_frames_below self <= _below_frame_counter self + 1 ->
  (update self markers).1 = set_below_frame_counter 0 (set_state "below" self)
  /\ SquatResult.state (update self markers).2 = "below"
  /\ SquatResult.new_rep (update self markers).2 = false.
Proof.
  intros Hs Hd Hc. apply deep_reading in Hd as (v & Hr & Hv).
  rewrite (update_above self markers v Hr Hs). split_tests; try lia. done.
Qed.

(** A shallow frame in state ["above"] restarts the counter. *)
Lemma update_shallow self markers :
  state self = "above" ->
  shallow self markers = true ->
  0 < min_frames_below self ->
  (update self markers).1 = set_below_frame_counter 0 self
  /\ SquatResult.state (update self markers).2 = "above"
  /\ SquatResult.new_rep (update self markers).2 = false.
Proof.
  intros Hs Hd Hc. apply shallow_reading in Hd as (v & Hr & Hv).
  rewrite (update_above self markers v Hr Hs). split_tests; try lia. done.
Qed.

(** A run of deep frames too short to complete the debounce. *)
Lemma run_deep_waiting frames : forall self,
  state self = "above" ->
  Forall (fun m => deep self m = true) frames ->
  _below_frame_counter self + Z.of_nat (length frames) < min_frames_below self ->
  (run self frames).1
  = set_below_frame_counter
      (_below_frame_counter self + Z.of_nat (length frames)) self
  /\ Forall (fun r => SquatResult.state r = "above"
                      /\ SquatResult.new_rep r = false) (run self frames).2.
Proof.
  induction frames as [|m frames IH]; intros self Hs Hd Hc.
  - simpl. split; [|constructor].
    symmetry. apply set_below_frame_counter_id. lia.
  - rewrite run_cons. simpl fst. simpl snd.
    inversion Hd as [|? ? Hm Hrest]; subst.
    rewrite length_cons, Nat2Z.inj_succ in Hc |- *.
    destruct (update_deep_waiting self m Hs Hm) as (E & Est & Eev); [lia|].
    rewrite E.
    destruct (IH (set_below_frame_counter (_below_frame_counter self + 1) self))
      as [E1 F1]; [done | done | simpl; lia |].
    rewrite E1. simpl. split.
    + unfold set_below_frame_counter. simpl. f_equal. lia.
    + by constructor.
Qed.

Lemma waiting_phases rs :
  Forall (fun r => SquatResult.state r = "above"
                   /\ SquatResult.new_rep r = false) rs ->
  phases rs = replicate (length rs) "above" /\ fired rs = 0%nat.
Proof.
  unfold phases, fired, events.
  induction 1 as [|r rs [Hs He] _ [IH1 IH2]]; [done|].
  simpl. rewrite Hs, He, IH1. simpl. done.
Qed.

Lemma run_single self markers :
  run self [markers] = ((update self markers).1, [(update self markers).2]).
Proof. by rewrite run_cons. Qed.

(** C2, amended: an analyzer in state ["above"] whose below-frame counter is
    0 and whose [min_frames_below] is [k] stays in ["above"] through [k - 1]
    deep frames followed by a shallow one, ending with the counter at 0;
    and when the frame after the [k - 1] deep ones is deep as well, it is on
    that [k]-th frame that the state becomes ["below"], with the counter back
    at 0, no event and the count unchanged. *)
Theorem debounce_from_zero (self : SquatAnalyzer)
    (deep_frames : list (gmap Z Marker))
    (shallow_frame deep_frame : gmap Z Marker) :
  state self = "above" ->
  _below_frame_counter self = 0 ->
  Forall (fun m => deep self m = true) deep_frames ->
  Z.of_nat (length deep_frames) = min_frames_below self - 1 ->
  shallow self shallow_frame = true ->
  deep self deep_frame = true ->
  (let '(self', rs) := run self (deep_frames ++ [shallow_frame]) in
   state self' = "above"
   /\ _below_frame_counter self' = 0
   /\ rep_count self' = rep_count self
   /\ phases rs = replicate (length deep_frames) "above" ++ ["above"]
   /\ fired rs = 0%nat)
  /\ (let '(self', rs) := run self (deep_frames ++ [deep_frame]) in
      state self' = "below"
      /\ _below_frame_counter self' = 0
      /\ rep_count self' = rep_count self
      /\ phases rs = replicate (length deep_frames) "above" ++ ["below"]
      /\ fired rs = 0%nat).
Proof.
  intros Hs Hc Hd Hlen Hsh Hdp.
  destruct (run_deep_waiting deep_frames self Hs Hd) as [E F]; [lia|].
  apply waiting_phases in F as [Fp Ff]. rewrite run_length in Fp.
  rewrite !run_app, E, !run_single. unfold phases, fired, events in *.
  rewrite !map_app, Fp, !count_occ_app, Ff. simpl.
  set (self1 := set_below_frame_counter _ self).
  split.
  - destruct (update_shallow self1 shallow_frame) as (E1 & Est & Eev);
      [done | done | simpl; lia |].
    rewrite E1, Est, Eev. simpl. done.
  - destruct (update_deep_switch self1 deep_frame) as (E1 & Est & Eev);
      [done | done | simpl; lia |].
    rewrite E1, Est, Eev. simpl. done.
Qed.

Lemma debounce_from_zero_witness :
  let self := init 0 200 350 3 true in
  let deep_frames := [frame_at 0 400; frame_at 0 360] in
  (let '(self', rs) := run self (deep_frames ++ [frame_at 0 300]) in
   state self' = "above"
   /\ _below_frame_counter self' = 0
   /\ rep_count self' = rep_count self
   /\ phases rs = replicate (length deep_frames) "above" ++ ["above"]
   /\ fired rs = 0%nat)
  /\ (let '(self', rs) := run self (deep_frames ++ [frame_at 0 350]) in
      state self' = "below"
      /\ _below_frame_counter self' = 0
      /\ rep_count self' = rep_count self
      /\ phases rs = replicate (length deep_frames) "above" ++ ["below"]
      /\ fired rs = 0%nat).
Proof.
  apply (debounce_from_zero (init 0 200 350 3 true)
           [frame_at 0 400; frame_at 0 360] (frame_at 0 300) (frame_at 0 350)).
  - reflexivity.
  - reflexivity.
  - repeat constructor.
  - reflexivity.
  - reflexivity.
  - reflexivity.
Defined.

(** C2 as stated fails at a reachable analyzer with a pending counter: after
    one deep frame under [min_frames_below = 2] the state is ["above"] with
    the counter at 1, and then one deep frame ([k - 1 = 1]) followed by a
    shallow one ends in state ["below"]. *)
Lemma debounce_pending_counter :
  let self := exec scenario_analyzer (CallUpdate (frame_at 0 400)) in
  let deep_frames := [frame_at 0 400] in
  let last := frame_at 0 300 in
  reachable self
  /\ state self = "above"
  /\ _below_frame_counter self = 1
  /\ min_frames_below self = 2
  /\ Forall (fun m => deep self m = true) deep_frames
  /\ Z.of_nat (length deep_frames) = min_frames_below self - 1
  /\ shallow self last = true
  /\ state (run self (deep_frames ++ [last])).1 = "below"
  /\ phases (run self (deep_frames ++ [last])).2 = ["below"; "below"]
  /\ ~ debounce_as_stated.
Proof.
  assert (R : reachable (exec scenario_analyzer (CallUpdate (frame_at 0 400))))
    by apply reachable_exec, reachable_init.
  repeat split; try done.
  - repeat constructor.
  - intros H.
    destruct (H (exec scenario_analyzer (CallUpdate (frame_at 0 400)))
                [frame_at 0 400] (frame_at 0 300)) as [E _];
      try done; try (repeat constructor).
Qed.

(** ** The [require_marker] flag *)

Lemma update_set_require_marker require self markers :
  (update (set_require_marker require self) markers).1
  = set_require_marker require (update self markers).1
  /\ same_but_text (update self markers).2
       (update (set_require_marker require self) markers).2
  /\ (SquatResult.depth (update self markers).2 <> None ->
      (update self markers).2
      = (update (set_require_marker require self) markers).2)
  /\ (SquatResult.depth (update self markers).2 = None ->
      SquatResult.status_text (update self markers).2
      = absent_text (require_marker self)
      /\ SquatResult.status_text
           (update (set_require_marker require self) markers).2
         = absent_text require).
Proof.
  unfold same_but_text.
  destruct (reading self markers) as [v|] eqn:Hr.
  - assert (Hr' : reading (set_require_marker require self) markers = Some v)
      by done.
    destruct (String.eqb_spec (state self) "above") as [Hs|Hs];
      [|destruct (String.eqb_spec (state self) "below") as [Hs'|Hs']].
    + rewrite (update_above self markers v Hr Hs),
        (update_above _ markers v Hr' Hs).
      simpl. split_tests; first [done | lia].
    + rewrite (update_below self markers v Hr Hs'),
        (update_below _ markers v Hr' Hs').
      simpl. split_tests; first [done | lia].
    + rewrite (update_fallback self markers v Hr Hs Hs'),
        (update_fallback _ markers v Hr' Hs Hs').
      done.
  - apply reading_None in Hr.
    rewrite (update_absent self markers Hr),
      (update_absent (set_require_marker require self) markers Hr).
    done.
Qed.

(** C8, amended: two analyzers that differ in [require_marker] only, run on
    the same frames, stay equal up to that flag and return results that agree
    on [rep_count], [new_rep], [depth] and [state] on every frame; the whole
    result is the same on a frame that has the hip marker, and on a frame
    that lacks it the status text is ["Hip marker not detected"] under
    [require_marker = True] and ["No marker (ignored)"] under [False]. *)
Theorem require_marker_changes_text_only (self : SquatAnalyzer)
    (require : bool) (frames : list (gmap Z Marker)) :
  (run (set_require_marker require self) frames).1
  = set_require_marker require (run self frames).1
  /\ Forall2 same_but_text (run self frames).2
       (run (set_require_marker require self) frames).2
  /\ Forall2 (fun r1 r2 => SquatResult.depth r1 <> None -> r1 = r2)
       (run self frames).2 (run (set_require_marker require self) frames).2
  /\ Forall2 (fun r1 r2 =>
                SquatResult.depth r1 = None ->
                SquatResult.status_text r1 = absent_text (require_marker self)
                /\ SquatResult.status_text r2 = absent_text require)
       (run self frames).2 (run (set_require_marker require self) frames).2.
Proof.
  revert self. induction frames as [|m frames IH]; intros self.
  - simpl. repeat split; constructor.
  - rewrite !run_cons. simpl fst. simpl snd.
    destruct (update_set_require_marker require self m) as (E & S & P & A).
    rewrite E.
    destruct (IH (update self m).1) as (E' & S' & P' & A').
    destruct (update_config self m) as (_ & _ & _ & _ & Hreq).
    rewrite Hreq in A'.
    repeat split; try done; by constructor.
Qed.

(** C8 as stated fails on the first frame without the hip marker: the two
    values of [require_marker] give two status texts. *)
Lemma require_marker_text_differs :
  let absent : gmap Z Marker := ∅ in
  (update (init 0 200 350 2 true) absent).2
  = SquatResult.mk 0 false None "above" "Hip marker not detected"
  /\ (update (set_require_marker false (init 0 200 350 2 true)) absent).2
     = SquatResult.mk 0 false None "above" "No marker (ignored)"
  /\ ~ require_marker_unobservable.
Proof.
  repeat split.
  intros H. specialize (H (init 0 200 350 2 true) false [∅]). done.
Qed.

(** ** What [update] reads *)

Lemma update_by_reading self markers1 markers2 :
  reading self markers1 = reading self markers2 ->
  update self markers1 = update self markers2.
Proof.
  intros H. update_cases self markers1.
  - by rewrite (update_above self markers2 v).
  - by rewrite (update_below self markers2 v).
  - by rewrite (update_fallback self markers2 v).
  - symmetry in H. apply reading_None in H.
    by rewrite (update_absent self markers2).
Qed.

(** X1: [update] looks at nothing in the marker dictionary but the vertical
    centre coordinate of the marker [hip_id]: two dictionaries that give the
    same hip reading (other markers, the horizontal coordinate and all else
    may differ) give the same analyzer and the same result. *)
Theorem update_reads_hip_only (self : SquatAnalyzer)
    (markers1 markers2 : gmap Z Marker) :
  reading self markers1 = reading self markers2 ->
  update self markers1 = update self markers2.
Proof. apply update_by_reading. Qed.

Lemma update_reads_hip_only_witness :
  update scenario_analyzer (frame_at 0 400)
  = update scenario_analyzer
      (<[0 := mkMarker (77, 400)]> (<[5 := mkMarker (1, 2)]> ∅)).
Proof.
  apply (update_reads_hip_only scenario_analyzer (frame_at 0 400)
           (<[0 := mkMarker (77, 400)]> (<[5 := mkMarker (1, 2)]> ∅))).
  reflexivity.
Defined.

(** ** Frames without the hip marker, over a run *)

Lemma update_hip_id self markers : hip_id (update self markers).1 = hip_id self.
Proof. by destruct (update_config self markers) as (? & _). Qed.

Lemma run_config frames : forall self,
  let self' := (run self frames).1 in
  hip_id self' = hip_id self
  /\ top_threshold self' = top_threshold self
  /\ bottom_threshold self' = bottom_threshold self
  /\ min_frames_below self' = min_frames_below self
  /\ require_marker self' = require_marker self.
Proof.
  induction frames as [|m frames IH]; intros self; [done|].
  rewrite run_cons. simpl.
  destruct (IH (update self m).1) as (-> & -> & -> & -> & ->).
  apply update_config.
Qed.

Lemma has_depth_seen self markers :
  has_depth (update self markers).2 = seen (hip_id self) markers.
Proof.
  unfold has_depth, seen.
  pose proof (update_result_fields self markers) as H.
  destruct (update self markers) as [self' r]. simpl.
  destruct H as (_ & _ & ->). unfold reading. by destruct (markers !! hip_id self).
Qed.

Lemma update_unseen self markers :
  seen (hip_id self) markers = false -> (update self markers).1 = self.
Proof.
  unfold seen. destruct (markers !! hip_id self) eqn:E; [done|].
  intros _. by rewrite (update_absent self markers E).
Qed.

Lemma run_skip_unseen frames : forall self,
  (run self frames).1
  = (run self (List.filter (seen (hip_id self)) frames)).1
  /\ List.filter has_depth (run self frames).2
     = (run self (List.filter (seen (hip_id self)) frames)).2.
Proof.
  induction frames as [|m frames IH]; intros self; [done|].
  rewrite run_cons. simpl. rewrite has_depth_seen.
  destruct (seen (hip_id self) m) eqn:E.
  - rewrite run_cons. simpl.
    destruct (IH (update self m).1) as [IH1 IH2].
    rewrite update_hip_id in IH1, IH2. by rewrite IH1, IH2.
  - rewrite (update_unseen self m E). apply IH.
Qed.

(** X2: frames that lack the hip marker are transparent to a run.  Dropping
    them from the sequence changes neither the analyzer reached at the end
    (state, count and debounce progress included) nor the results returned
    for the frames that do have the marker. *)
Theorem unseen_frames_transparent (self : SquatAnalyzer)
    (frames : list (gmap Z Marker)) :
  (run self frames).1
  = (run self (List.filter (seen (hip_id self)) frames)).1
  /\ List.filter has_depth (run self frames).2
     = (run self (List.filter (seen (hip_id self)) frames)).2.
Proof. apply run_skip_unseen. Qed.

Example deep_unseen_deep :
  let unseen : gmap Z Marker := frame_at 4 999 in
  phases (run scenario_analyzer [frame_at 0 400; unseen; unseen; frame_at 0 400]).2
  = ["above"; "above"; "above"; "below"].
Proof. vm_compute. done. Qed.

(** ** Reset against construction *)

Lemma reset_as_init self :
  1 <= min_frames_below self ->
  reset self
  = init (hip_id self) (top_threshold self) (bottom_threshold self)
      (min_frames_below self) (require_marker self).
Proof.
  intros H. unfold reset, init, int. rewrite Z.max_r by lia. done.
Qed.

Lemma reset_run self frames : reset (run self frames).1 = reset self.
Proof.
  destruct (run_config frames self) as (H1 & H2 & H3 & H4 & H5).
  unfold reset, set_below_frame_counter, set_rep_count, set_state. simpl.
  by rewrite H1, H2, H3, H4, H5.
Qed.

(** X3: on a reachable analyzer [reset] gives the analyzer that the
    constructor builds from the current configuration (hip id, the
    thresholds as last assigned, debounce length, require flag); in
    particular the frames seen before a reset leave no trace after it. *)
Theorem reset_is_fresh (self : SquatAnalyzer) (frames : list (gmap Z Marker)) :
  reachable self ->
  reset self
  = init (hip_id self) (top_threshold self) (bottom_threshold self)
      (min_frames_below self) (require_marker self)
  /\ reset (run self frames).1 = reset self.
Proof.
  intros R. apply reachable_invariant in R as [Hc _].
  split; [apply reset_as_init; lia | apply reset_run].
Qed.

Lemma reset_is_fresh_witness :
  let self :=
    exec (exec (exec (init 0 200 350 2 true) (CallUpdate (frame_at 0 400)))
               (AssignTop 180))
         (CallUpdate (frame_at 0 400)) in
  let frames := [frame_at 0 150; frame_at 0 400] in
  reset self
  = init (hip_id self) (top_threshold self) (bottom_threshold self)
      (min_frames_below self) (require_marker self)
  /\ reset (run self frames).1 = reset self.
Proof.
  apply (reset_is_fresh
           (exec (exec (exec (init 0 200 350 2 true)
                             (CallUpdate (frame_at 0 400)))
                       (AssignTop 180))
                 (CallUpdate (frame_at 0 400)))
           [frame_at 0 150; frame_at 0 400]).
  apply reachable_exec, reachable_exec, reachable_exec, reachable_init.
Defined.

(** ** What a repetition needs *)

Lemma deep_update self markers markers' :
  deep (update self markers).1 markers' = deep self markers'.
Proof.
  unfold deep, reading.
  destruct (update_config self markers) as (-> & _ & -> & _). done.
Qed.

Lemma standing_update self markers markers' :
  standing (update self markers).1 markers' = standing self markers'.
Proof.
  unfold standing, reading.
  destruct (update_config self markers) as (-> & -> & _). done.
Qed.

(** In state ["above"] a frame that is not deep (shallow, or without the hip
    marker) keeps the state and fires nothing. *)
Lemma update_not_deep self markers :
  state self = "above" ->
  1 <= min_frames_below self ->
  deep self markers = false ->
  state (update self markers).1 = "above"
  /\ SquatResult.state (update self markers).2 = "above"
  /\ SquatResult.new_rep (update self markers).2 = false.
Proof.
  unfold deep. intros Hs Hk Hd.
  destruct (reading self markers) as [v|] eqn:Hr.
  - apply Z.leb_gt in Hd.
    rewrite (update_above self markers v Hr Hs). split_tests; try lia. done.
  - apply reading_None in Hr. by rewrite (update_absent self markers Hr).
Qed.

(** Leaving state ["above"] takes a deep frame. *)
Lemma update_switch_deep self markers :
  state self = "above" ->
  1 <= min_frames_below self ->
  state (update self markers).1 <> "above" ->
  deep self markers = true.
Proof.
  intros Hs Hk Hn. destruct (deep self markers) eqn:E; [done|].
  by destruct (update_not_deep self markers Hs Hk E) as (? & _).
Qed.

(** An event takes a standing frame. *)
Lemma update_not_standing self markers :
  standing self markers = false ->
  SquatResult.new_rep (update self markers).2 = false.
Proof.
  unfold standing. intros Hd. update_cases self markers; split_tests; done.
Qed.

Lemma run_no_deep frames : forall self,
  state self = "above" ->
  1 <= min_frames_below self ->
  Forall (fun m => deep self m = false) frames ->
  state (run self frames).1 = "above"
  /\ Forall (fun r => SquatResult.state r = "above"
                      /\ SquatResult.new_rep r = false) (run self frames).2.
Proof.
  induction frames as [|m frames IH]; intros self Hs Hk Hd.
  - simpl. split; [done|constructor].
  - inversion Hd as [|? ? Hm Hrest]; subst.
    rewrite run_cons. simpl.
    destruct (update_not_deep self m Hs Hk Hm) as (Hs1 & Hr & He).
    destruct (IH (update self m).1) as [IH1 IH2]; try done.
    + by destruct (update_config self m) as (_ & _ & _ & -> & _).
    + eapply Forall_impl; [exact Hrest|].
      intros m' Hm'. simpl. by rewrite deep_update.
    + split; [done|]. by constructor.
Qed.

Lemma fired_cons r rs :
  fired (r :: rs)
  = ((if SquatResult.new_rep r then 1 else 0) + fired rs)%nat.
Proof. unfold fired, events. simpl. by destruct (SquatResult.new_rep r). Qed.

Lemma fired_standing frames : forall self,
  (0 < fired (run self frames).2)%nat ->
  Exists (fun m => standing self m = true) frames.
Proof.
  induction frames as [|m frames IH]; intros self H.
  - simpl in H. unfold fired in H. simpl in H. lia.
  - rewrite run_cons in H. simpl in H. rewrite fired_cons in H.
    destruct (standing self m) eqn:E; [by left|]. right.
    rewrite (update_not_standing self m E) in H. simpl in H.
    apply IH in H. eapply Exists_impl; [exact H|].
    intros m' Hm'. simpl in Hm'. by rewrite standing_update in Hm'.
Qed.

Lemma fired_deep_then_standing frames : forall self,
  state self = "above" ->
  1 <= min_frames_below self ->
  (0 < fired (run self frames).2)%nat ->
  exists before m after,
    frames = before ++ m :: after
    /\ deep self m = true
    /\ Exists (fun m' => standing self m' = true) after.
Proof.
  induction frames as [|m frames IH]; intros self Hs Hk H.
  - simpl in H. unfold fired in H. simpl in H. lia.
  - rewrite run_cons in H. simpl in H. rewrite fired_cons in H.
    assert (He : SquatResult.new_rep (update self m).2 = false).
    { rewrite new_rep_low_to_high. unfold low_to_high. by rewrite Hs. }
    rewrite He in H. simpl in H.
    destruct (String.eqb_spec (state (update self m).1) "above") as [Hs1|Hs1].
    + destruct (IH (update self m).1) as (before & m1 & after & -> & Hd & Hst);
        try done.
      { by destruct (update_config self m) as (_ & _ & _ & -> & _). }
      exists (m :: before), m1, after. split; [done|].
      rewrite deep_update in Hd. split; [done|].
      eapply Exists_impl; [exact Hst|].
      intros m' Hm'. simpl in Hm'. by rewrite standing_update in Hm'.
    + exists [], m, frames. split; [done|].
      split; [by apply update_switch_deep|].
      apply fired_standing in H. eapply Exists_impl; [exact H|].
      intros m' Hm'. simpl in Hm'. by rewrite standing_update in Hm'.
Qed.

(** X4: shallow noise never starts a repetition.  From state ["above"], with
    a debounce length of at least 1, frames none of which is deep (readings
    short of [bottom_threshold], or no hip marker) leave the state at
    ["above"] on every frame, fire no event and leave the count as it was,
    whatever the pending counter. *)
Theorem no_depth_no_rep (self : SquatAnalyzer) (frames : list (gmap Z Marker)) :
  state self = "above" ->
  1 <= min_frames_below self ->
  Forall (fun m => deep self m = false) frames ->
  state (run self frames).1 = "above"
  /\ phases (run self frames).2 = replicate (length frames) "above"
  /\ fired (run self frames).2 = 0%nat
  /\ rep_count (run self frames).1 = rep_count self.
Proof.
  intros Hs Hk Hd.
  destruct (run_no_deep frames self Hs Hk Hd) as [H1 H2].
  apply waiting_phases in H2 as [H2 H3]. rewrite run_length in H2.
  rewrite run_rep_count, H3. repeat split; try done. lia.
Qed.

Lemma no_depth_no_rep_witness :
  let self := set_below_frame_counter 1 scenario_analyzer in
  let frames := [frame_at 0 349; frame_at 3 400; frame_at 0 100; ∅] in
  state (run self frames).1 = "above"
  /\ phases (run self frames).2 = replicate (length frames) "above"
  /\ fired (run self frames).2 = 0%nat
  /\ rep_count (run self frames).1 = rep_count self.
Proof.
  apply (no_depth_no_rep (set_below_frame_counter 1 scenario_analyzer)
           [frame_at 0 349; frame_at 3 400; frame_at 0 100; ∅]).
  - reflexivity.
  - vm_compute. discriminate.
  - repeat constructor.
Defined.

(** X5: no event without standing up.  From any analyzer state, frames none
    of which is standing (readings past [top_threshold], or no hip marker)
    fire no event and leave the count as it was. *)
Theorem no_stand_no_rep (self : SquatAnalyzer) (frames : list (gmap Z Marker)) :
  Forall (fun m => standing self m = false) frames ->
  fired (run self frames).2 = 0%nat
  /\ rep_count (run self frames).1 = rep_count self.
Proof.
  intros H.
  assert (F : fired (run self frames).2 = 0%nat).
  { destruct (fired (run self frames).2) eqn:E; [done|].
    assert (E' : Exists (fun m => standing self m = true) frames)
      by (apply fired_standing; lia).
    apply Exists_exists in E' as (m & Hin & Hm).
    rewrite Forall_forall in H. apply H in Hin. congruence. }
  split; [done|]. rewrite run_rep_count, F. lia.
Qed.

Lemma no_stand_no_rep_witness :
  let self := set_state "below" scenario_analyzer in
  let frames := [frame_at 0 201; frame_at 0 400; ∅; frame_at 0 250] in
  fired (run self frames).2 = 0%nat
  /\ rep_count (run self frames).1 = rep_count self.
Proof.
  apply (no_stand_no_rep (set_state "below" scenario_analyzer)
           [frame_at 0 201; frame_at 0 400; ∅; frame_at 0 250]).
  repeat constructor.
Defined.

(** X6: a counted repetition is a full excursion.  When a run that starts in
    state ["above"] (debounce length at least 1) raises the count, the
    sequence holds a deep frame and, somewhere after it, a standing frame. *)
Theorem rep_needs_depth_then_stand (self : SquatAnalyzer)
    (frames : list (gmap Z Marker)) :
  state self = "above" ->
  1 <= min_frames_below self ->
  rep_count self < rep_count (run self frames).1 ->
  exists before m after,
    frames = before ++ m :: after
    /\ deep self m = true
    /\ Exists (fun m' => standing self m' = true) after.
Proof.
  intros Hs Hk H. rewrite run_rep_count in H.
  apply fired_deep_then_standing; [done|done|lia].
Qed.

Lemma rep_needs_depth_then_stand_witness :
  let frames := map (frame_at 0) [100; 400; 400; 300; 150] in
  exists before m after,
    frames = before ++ m :: after
    /\ deep scenario_analyzer m = true
    /\ Exists (fun m' => standing scenario_analyzer m' = true) after.
Proof.
  apply (rep_needs_depth_then_stand scenario_analyzer
           (map (frame_at 0) [100; 400; 400; 300; 150])).
  - reflexivity.
  - vm_compute. discriminate.
  - vm_compute. reflexivity.
Defined.

(** X7: with the thresholds in order, [top_threshold < bottom_threshold], a
    marker that does not move counts nothing.  From state ["above"], frames
    that all show the hip marker at one height [v], or do not show it, fire
    no event however many they are. *)
Theorem motionless_never_counts (self : SquatAnalyzer) (v : Z)
    (frames : list (gmap Z Marker)) :
  top_threshold self < bottom_threshold self ->
  state self = "above" ->
  1 <= min_frames_below self ->
  Forall (fun m => reading self m = None \/ reading self m = Some v) frames ->
  fired (run self frames).2 = 0%nat
  /\ rep_count (run self frames).1 = rep_count self.
Proof.
  intros Hord Hs Hk Hall.
  assert (F : fired (run self frames).2 = 0%nat).
  { destruct (fired (run self frames).2) eqn:E; [done|].
    destruct (fired_deep_then_standing frames self Hs Hk)
      as (before & m & after & -> & Hd & Hst); [lia|].
    apply Exists_exists in Hst as (m' & Hin & Hm').
    rewrite Forall_forall in Hall.
    assert (H1 : reading self m = None \/ reading self m = Some v).
    { apply Hall. rewrite elem_of_app, elem_of_cons. auto. }
    assert (H2 : reading self m' = None \/ reading self m' = Some v).
    { apply Hall. rewrite elem_of_app, elem_of_cons. auto. }
    unfold deep in Hd. unfold standing in Hm'.
    destruct H1 as [H1|H1]; rewrite H1 in Hd; [done|].
    destruct H2 as [H2|H2]; rewrite H2 in Hm'; [done|].
    apply Z.leb_le in Hd, Hm'. lia. }
  split; [done|]. rewrite run_rep_count, F. lia.
Qed.

Lemma motionless_never_counts_witness :
  let frames := [frame_at 0 400; frame_at 0 400; ∅; frame_at 0 400] in
  fired (run scenario_analyzer frames).2 = 0%nat
  /\ rep_count (run scenario_analyzer frames).1 = rep_count scenario_analyzer.
Proof.
  apply (motionless_never_counts scenario_analyzer 400
           [frame_at 0 400; frame_at 0 400; ∅; frame_at 0 400]).
  - reflexivity.
  - reflexivity.
  - vm_compute. discriminate.
  - repeat constructor; (by left) || (by right).
Defined.

(** ** The debounce with a pending counter *)

(** X8: the debounce counts from where the counter stands.  In state
    ["above"] with the counter at [c] and [min_frames_below = k], a run of
    [k - c - 1] deep frames keeps the state; a shallow frame after it sends
    the counter back to 0 without a switch, and a deep frame after it is the
    one on which the state becomes ["below"], with no event and the count
    unchanged. *)
Theorem debounce_from_pending (self : SquatAnalyzer)
    (deep_frames : list (gmap Z Marker))
    (shallow_frame deep_frame : gmap Z Marker) :
  state self = "above" ->
  0 <= _below_frame_counter self ->
  Forall (fun m => deep self m = true) deep_frames ->
  _below_frame_counter self + Z.of_nat (length deep_frames)
  = min_frames_below self - 1 ->
  shallow self shallow_frame = true ->
  deep self deep_frame = true ->
  (let '(self', rs) := run self (deep_frames ++ [shallow_frame]) in
   state self' = "above"
   /\ _below_frame_counter self' = 0
   /\ rep_count self' = rep_count self
   /\ phases rs = replicate (length deep_frames) "above" ++ ["above"]
   /\ fired rs = 0%nat)
  /\ (let '(self', rs) := run self (deep_frames ++ [deep_frame]) in
      state self' = "below"
      /\ _below_frame_counter self' = 0
      /\ rep_count self' = rep_count self
      /\ phases rs = replicate (length deep_frames) "above" ++ ["below"]
      /\ fired rs = 0%nat).
Proof.
  intros Hs Hc Hd Hlen Hsh Hdp.
  destruct (run_deep_waiting deep_frames self Hs Hd) as [E F]; [lia|].
  apply waiting_phases in F as [Fp Ff]. rewrite run_length in Fp.
  rewrite !run_app, E, !run_single. unfold phases, fired, events in *.
  rewrite !map_app, Fp, !count_occ_app, Ff. simpl.
  set (self1 := set_below_frame_counter _ self).
  split.
  - destruct (update_shallow self1 shallow_frame) as (E1 & Est & Eev);
      [done | done | simpl; lia |].
    rewrite E1, Est, Eev. simpl. done.
  - destruct (update_deep_switch self1 deep_frame) as (E1 & Est & Eev);
      [done | done | simpl; lia |].
    rewrite E1, Est, Eev. simpl. done.
Qed.

Lemma debounce_from_pending_witness :
  let self := set_below_frame_counter 2 (init 0 200 350 4 true) in
  let deep_frames := [frame_at 0 400] in
  (let '(self', rs) := run self (deep_frames ++ [frame_at 0 300]) in
   state self' = "above"
   /\ _below_frame_counter self' = 0
   /\ rep_count self' = rep_count self
   /\ phases rs = replicate (length deep_frames) "above" ++ ["above"]
   /\ fired rs = 0%nat)
  /\ (let '(self', rs) := run self (deep_frames ++ [frame_at 0 350]) in
      state self' = "below"
      /\ _below_frame_counter self' = 0
      /\ rep_count self' = rep_count self
      /\ phases rs = replicate (length deep_frames) "above" ++ ["below"]
      /\ fired rs = 0%nat).
Proof.
  apply (debounce_from_pending
           (set_below_frame_counter 2 (init 0 200 350 4 true))
           [frame_at 0 400] (frame_at 0 300) (frame_at 0 350)).
  - reflexivity.
  - vm_compute. discriminate.
  - repeat constructor.
  - reflexivity.
  - reflexivity.
  - reflexivity.
Defined.

(** ** The status text *)

(** X9: the status text tells which branch ran.  ["Rep completed!"] is
    returned exactly with [new_rep] set, ["Reached depth (below)"] exactly on
    the call that takes the state from ["above"] to ["below"], and one of the
    two no-marker texts exactly when the result has no depth. *)
Theorem status_text_tells_branch (self : SquatAnalyzer)
    (markers : gmap Z Marker) :
  let '(self', r) := update self markers in
  (SquatResult.status_text r = "Rep completed!"
   <-> SquatResult.new_rep r = true)
  /\ (SquatResult.status_text r = "Reached depth (below)"
      <-> state self = "above" /\ state self' = "below")
  /\ (SquatResult.status_text r = "Hip marker not detected"
      \/ SquatResult.status_text r = "No marker (ignored)"
      <-> SquatResult.depth r = None).
Proof.
  update_cases self markers; split_tests;
    try destruct (require_marker self); simpl;
    repeat split; intros; try done; try (intuition congruence); auto.
Qed.

(** ** Overlapping thresholds *)

(** With [bottom_threshold <= v <= top_threshold] a frame at [v] is deep and
    standing at once: under a debounce length of 1 it switches the state on
    every call. *)
Lemma update_overlap_pair self markers v :
  state self = "above" ->
  min_frames_below self = 1 ->
  0 <= _below_frame_counter self ->
  reading self markers = Some v ->
  bottom_threshold self <= v <= top_threshold self ->
  let self2 := (update (update self markers).1 markers).1 in
  self2 = set_below_frame_counter 0 (set_rep_count (rep_count self + 1) self)
  /\ SquatResult.new_rep (update (update self markers).1 markers).2 = true.
Proof.
  intros Hs Hk Hc Hr Hv.
  rewrite (update_above self markers v Hr Hs). split_tests; try lia.
  set (self1 := set_below_frame_counter 0 _).
  assert (Hr1 : reading self1 markers = Some v) by done.
  rewrite (update_below self1 markers v Hr1); [|done].
  split_tests; try lia. split; [|done].
  unfold self1, set_below_frame_counter, set_rep_count, set_state. simpl.
  by rewrite Hs.
Qed.

(** X10: the thresholds are not checked against each other, and when they
    overlap a marker at rest is counted.  With
    [bottom_threshold <= v <= top_threshold] and [min_frames_below = 1], an
    analyzer in state ["above"] that is shown the hip marker at height [v]
    on [2 * n] frames in a row counts [n] repetitions. *)
Theorem overlapping_thresholds_count_at_rest (self : SquatAnalyzer)
    (markers : gmap Z Marker) (v : Z) (n : nat) :
  state self = "above" ->
  min_frames_below self = 1 ->
  0 <= _below_frame_counter self ->
  reading self markers = Some v ->
  bottom_threshold self <= v <= top_threshold self ->
  state (run self (replicate (2 * n) markers)).1 = "above"
  /\ rep_count (run self (replicate (2 * n) markers)).1
     = rep_count self + Z.of_nat n.
Proof.
  revert self. induction n as [|n IH]; intros self Hs Hk Hc Hr Hv.
  - simpl. split; [done|lia].
  - assert (R : replicate (2 * S n) markers
                = markers :: markers :: replicate (2 * n) markers).
    { replace (2 * S n)%nat with (S (S (2 * n))) by lia. done. }
    rewrite R, !run_cons. cbn [fst].
    destruct (update_overlap_pair self markers v Hs Hk Hc Hr Hv) as [E _].
    cbv zeta in E. rewrite E.
    destruct (IH (set_below_frame_counter 0
                    (set_rep_count (rep_count self + 1) self)))
      as [IH1 IH2]; try done.
    split; [done|]. rewrite IH2. simpl. lia.
Qed.

Lemma overlapping_thresholds_count_at_rest_witness :
  let self := init 0 400 300 1 true in
  state (run self (replicate (2 * 3) (frame_at 0 350))).1 = "above"
  /\ rep_count (run self (replicate (2 * 3) (frame_at 0 350))).1
     = rep_count self + Z.of_nat 3.
Proof.
  apply (overlapping_thresholds_count_at_rest (init 0 400 300 1 true)
           (frame_at 0 350) 350 3).
  - reflexivity.
  - reflexivity.
  - vm_compute. discriminate.
  - reflexivity.
  - vm_compute. split; discriminate.
Defined.

(** ** The count and the events *)

(** X11: the count is the number of events.  Over any run the count grows by
    the number of results returned with [new_rep] set, so an analyzer run
    from construction holds exactly as many repetitions as events it fired,
    and each result carries the count reached at its frame. *)
Theorem rep_count_counts_events (self : SquatAnalyzer)
    (hip top bottom k : Z) (require : bool) (frames : list (gmap Z Marker)) :
  rep_count (run self frames).1
  = rep_count self + Z.of_nat (fired (run self frames).2)
  /\ rep_count (run (init hip top bottom k require) frames).1
     = Z.of_nat (fired (run (init hip top bottom k require) frames).2)
  /\ last (counts self (run self frames).2)
     = Some (rep_count (run self frames).1).
Proof.
  split; [apply run_rep_count|]. split; [by rewrite run_rep_count|].
  revert self. induction frames as [|m frames IH]; intros self; [done|].
  rewrite run_cons. simpl fst. simpl snd. rewrite <- IH.
  unfold counts. simpl map. rewrite update_result_rep_count.
  by rewrite last_cons_cons.
Qed.

(** ** The window: timer period *)

(** X12: the timer period is at least one millisecond for every frame rate
    the constructor accepts.  At [fps = 0] construction fails on the
    division; for a rate between 1 and 1000 the period [d] is the whole
    number of milliseconds with [d * fps <= 1000 < (d + 1) * fps]; for a
    negative rate or one above 1000 it is 1. *)
Theorem frame_delay_bounds (fps : Z) :
  fps <> 0 ->
  frame_delay 0 = None
  /\ exists d,
       frame_delay fps = Some d
       /\ 1 <= d
       /\ if (1 <=? fps) && (fps <=? 1000)
          then d * fps <= 1000 < (d + 1) * fps
          else d = 1.
Proof.
  intros H. split; [done|]. unfold frame_delay.
  destruct (Z.eqb_spec fps 0) as [|_]; [done|].
  eexists. split; [done|]. split; [lia|].
  destruct (Z.leb_spec 1 fps) as [H1|H1]; simpl.
  - rewrite Z.quot_div_nonneg by lia.
    pose proof (Z.div_mod 1000 fps ltac:(lia)) as D.
    pose proof (Z.mod_pos_bound 1000 fps ltac:(lia)) as M.
    destruct (Z.leb_spec fps 1000) as [H2|H2].
    + assert (1 <= 1000 / fps) by (apply Z.div_le_lower_bound; lia).
      rewrite Z.max_r by lia. nia.
    + rewrite Z.div_small by lia. done.
  - assert (fps < 0) by lia.
    assert (Z.quot 1000 fps <= 0).
    { rewrite <- (Z.opp_involutive fps), Z.quot_opp_r by lia.
      assert (0 <= Z.quot 1000 (- fps)) by (apply Z.quot_pos; lia). lia. }
    lia.
Qed.

Lemma frame_delay_bounds_witness :
  frame_delay 0 = None
  /\ exists d,
       frame_delay 30 = Some d
       /\ 1 <= d
       /\ if (1 <=? 30) && (30 <=? 1000)
          then d * 30 <= 1000 < (d + 1) * 30
          else d = 1.
Proof. apply (frame_delay_bounds 30). discriminate. Defined.

Example frame_delay_30 : frame_delay 30 = Some 33.
Proof. reflexivity. Qed.

Example frame_delay_negative : frame_delay (-7) = Some 1.
Proof. reflexivity. Qed.

(** ** The window: pause, labels, sound *)

Section WindowFacts.
Context {Frame : Type}.
Implicit Types (app : SquatApp Frame) (e : @gui_event Frame).

Lemma handle_all_cons app e events :
  handle_all app (e :: events) = handle_all (handle app e) events.
Proof. done. Qed.

Lemma paused_tick app frame markers :
  running app = false ->
  let app' := update_loop app frame markers in
  analyzer app' = analyzer app
  /\ running app' = false
  /\ rep_var app' = rep_var app
  /\ state_var app' = state_var app
  /\ status_var app' = status_var app
  /\ sounds_played app' = sounds_played app.
Proof.
  intros H. unfold update_loop. destruct frame; [|done]. by rewrite H.
Qed.

(** X13: pausing stops the counting.  While [running] is false, timer ticks
    leave the analyzer, the three labels and the number of sounds played as
    they were, whatever frames and markers the camera delivers; and a tick
    on which the camera delivered no frame changes nothing at all, paused or
    not. *)
Theorem paused_ticks_inert (app other : SquatApp Frame)
    (events : list (@gui_event Frame)) (markers : gmap Z Marker) :
  running app = false ->
  forallb is_tick events = true ->
  let app' := handle_all app events in
  analyzer app' = analyzer app
  /\ running app' = false
  /\ rep_var app' = rep_var app
  /\ state_var app' = state_var app
  /\ status_var app' = status_var app
  /\ sounds_played app' = sounds_played app
  /\ update_loop other None markers = other.
Proof.
  intros Hp Ht. simpl.
  cut (analyzer (handle_all app events) = analyzer app
       /\ running (handle_all app events) = false
       /\ rep_var (handle_all app events) = rep_var app
       /\ state_var (handle_all app events) = state_var app
       /\ status_var (handle_all app events) = status_var app
       /\ sounds_played (handle_all app events) = sounds_played app).
  { intros (? & ? & ? & ? & ? & ?). done. }
  revert app Hp Ht. induction events as [|e events IH]; intros app Hp Ht.
  - done.
  - simpl in Ht. apply andb_true_iff in Ht as [He Ht].
    destruct e as [frame m| | | |]; try done.
    rewrite handle_all_cons. simpl handle.
    destruct (paused_tick app frame m Hp) as (E1 & E2 & E3 & E4 & E5 & E6).
    destruct (IH (update_loop app frame m) E2 Ht) as (-> & -> & -> & -> & -> & ->).
    done.
Qed.

End WindowFacts.

Lemma paused_ticks_inert_witness :
  let app : SquatApp unit :=
    toggle_running
      (mkSquatApp scenario_analyzer 33 true "Reps: 0" "State: -" "Status: -"
         "Pause" None 0) in
  let events := [Tick (Some tt) (frame_at 0 400); Tick None ∅;
                 Tick (Some tt) (frame_at 0 400)] in
  let app' := handle_all app events in
  analyzer app' = analyzer app
  /\ running app' = false
  /\ rep_var app' = rep_var app
  /\ state_var app' = state_var app
  /\ status_var app' = status_var app
  /\ sounds_played app' = sounds_played app
  /\ update_loop (toggle_running app) None (frame_at 0 400)
     = toggle_running app.
Proof.
  apply (paused_ticks_inert
           (toggle_running
              (mkSquatApp scenario_analyzer 33 true "Reps: 0" "State: -"
                 "Status: -" "Pause" None 0))
           (toggle_running
              (toggle_running
                 (mkSquatApp scenario_analyzer 33 true "Reps: 0" "State: -"
                    "Status: -" "Pause" None 0)))
           [Tick (Some tt) (frame_at 0 400); Tick None ∅;
            Tick (Some tt) (frame_at 0 400)]
           (frame_at 0 400)).
  - reflexivity.
  - reflexivity.
Defined.

Section WindowInvariants.
Context {Frame : Type}.
Implicit Types (app : SquatApp Frame) (e : @gui_event Frame).

Lemma labels_agree_init a fps app :
  rep_count a = 0 ->
  @app_init Frame a fps = Some app ->
  labels_agree app.
Proof.
  unfold app_init, labels_agree. intros H0 H.
  destruct (frame_delay fps); [|done]. injection H as <-. simpl.
  rewrite H0. auto.
Qed.

Lemma labels_agree_handle app e :
  labels_agree app -> labels_agree (handle app e).
Proof.
  unfold labels_agree. intros (Hr & Hb & Hs).
  destruct e as [frame m| | | |]; simpl.
  - unfold update_loop. destruct frame; [|done].
    destruct (running app) eqn:Erun; [|simpl; by rewrite ?Erun].
    pose proof (update_result_fields (analyzer app) m) as F.
    destruct (update (analyzer app) m) as [a1 r].
    destruct F as (F1 & F2 & _). simpl. rewrite ?Erun, F1, F2. auto.
  - split; [done|]. split; [done|]. done.
  - split; [done|]. split; [done|]. by left.
  - done.
  - done.
Qed.

Lemma labels_agree_handle_all events : forall app,
  labels_agree app -> labels_agree (handle_all app events).
Proof.
  induction events as [|e events IH]; intros app H; [done|].
  apply IH. by apply labels_agree_handle.
Qed.

(** X14: the window never shows a stale count.  For a window built on an
    analyzer that has counted nothing yet, after any sequence of timer
    ticks, button clicks and slider moves the repetition label reads the
    analyzer's [rep_count], the button reads ["Pause"] exactly while
    running, and the state label is either the placeholder or the
    analyzer's state. *)
Theorem labels_always_agree (a : SquatAnalyzer) (fps : Z)
    (app : SquatApp Frame) (events : list (@gui_event Frame)) :
  rep_count a = 0 ->
  app_init a fps = Some app ->
  labels_agree (handle_all app events).
Proof.
  intros H0 H. apply labels_agree_handle_all.
  by apply (labels_agree_init a fps).
Qed.

Lemma handle_sounds app e :
  is_reset e = false ->
  Z.of_nat (sounds_played (handle app e)) - rep_count (analyzer (handle app e))
  = Z.of_nat (sounds_played app) - rep_count (analyzer app).
Proof.
  intros He. destruct e as [frame m| | | |]; try done. simpl.
  unfold update_loop. destruct frame; [|done].
  destruct (running app); [|done].
  pose proof (update_rep_count (analyzer app) m) as F.
  destruct (update (analyzer app) m) as [a1 r]. simpl in *.
  rewrite F. destruct (SquatResult.new_rep r); lia.
Qed.

(** X15: one sound per repetition.  Over any sequence of ticks, start/stop
    clicks and slider moves (no reset click), the number of calls of
    [play_valid_squat_sound] grows by exactly as much as the analyzer's
    [rep_count]. *)
Theorem sounds_match_reps (app : SquatApp Frame)
    (events : list (@gui_event Frame)) :
  forallb (fun e => negb (is_reset e)) events = true ->
  Z.of_nat (sounds_played (handle_all app events))
  - Z.of_nat (sounds_played app)
  = rep_count (analyzer (handle_all app events)) - rep_count (analyzer app).
Proof.
  revert app. induction events as [|e events IH]; intros app H.
  - simpl. lia.
  - simpl in H. apply andb_true_iff in H as [He H].
    apply negb_true_iff in He.
    rewrite handle_all_cons. specialize (IH (handle app e) H).
    pose proof (handle_sounds app e He). lia.
Qed.

End WindowInvariants.

Lemma labels_always_agree_witness :
  let app : SquatApp unit :=
    mkSquatApp scenario_analyzer 33 true "Reps: 0" "State: -" "Status: -"
      "Pause" None 0 in
  labels_agree
    (handle_all app
       [Tick (Some tt) (frame_at 0 400); MoveTop (401 # 2);
        Tick (Some tt) (frame_at 0 400); ClickStartStop; ClickStartStop;
        Tick (Some tt) (frame_at 0 150); ClickReset]).
Proof.
  apply (labels_always_agree scenario_analyzer 30
           (mkSquatApp scenario_analyzer 33 true "Reps: 0" "State: -"
              "Status: -" "Pause" None 0)).
  - reflexivity.
  - reflexivity.
Defined.

Lemma sounds_match_reps_witness :
  let app : SquatApp unit :=
    mkSquatApp scenario_analyzer 33 true "Reps: 0" "State: -" "Status: -"
      "Pause" None 0 in
  let events := [Tick (Some tt) (frame_at 0 400);
                 Tick (Some tt) (frame_at 0 400); ClickStartStop;
                 Tick (Some tt) (frame_at 0 150); ClickStartStop;
                 Tick (Some tt) (frame_at 0 150)] in
  Z.of_nat (sounds_played (handle_all app events))
  - Z.of_nat (sounds_played app)
  = rep_count (analyzer (handle_all app events)) - rep_count (analyzer app).
Proof.
  apply (sounds_match_reps
           (mkSquatApp scenario_analyzer 33 true "Reps: 0" "State: -"
              "Status: -" "Pause" None 0)
           [Tick (Some tt) (frame_at 0 400);
            Tick (Some tt) (frame_at 0 400); ClickStartStop;
            Tick (Some tt) (frame_at 0 150); ClickStartStop;
            Tick (Some tt) (frame_at 0 150)]).
  reflexivity.
Defined.

Example window_session :
  let app : SquatApp unit :=
    mkSquatApp scenario_analyzer 33 true "Reps: 0" "State: -" "Status: -"
      "Pause" None 0 in
  let app' :=
    handle_all app
      [Tick (Some tt) (frame_at 0 400); Tick (Some tt) (frame_at 0 400);
       Tick (Some tt) (frame_at 0 150)] in
  rep_var app' = "Reps: 1"
  /\ state_var app' = "State: above"
  /\ status_var app' = "Status: Rep completed!"
  /\ sounds_played app' = 1%nat.
Proof. vm_compute. done. Qed.

(** ** The window: sliders *)

Lemma int_of_float_floor (x : Q) :
  (0 <= x)%Q ->
  0 <= int_of_float x
  /\ (inject_Z (int_of_float x) <= x)%Q
  /\ (x < inject_Z (int_of_float x + 1))%Q.
Proof.
  destruct x as [n d]. unfold Qle, Qlt, int_of_float, inject_Z. simpl.
  intros H. rewrite Z.quot_div_nonneg by lia.
  pose proof (Z.div_mod n (Z.pos d) ltac:(lia)) as D.
  pose proof (Z.mod_pos_bound n (Z.pos d) ltac:(lia)) as M.
  assert (0 <= n / Z.pos d) by (apply Z.div_pos; lia).
  nia.
Qed.

(** X16: a slider move assigns the integer part of the slider value and
    nothing else.  For a value in the slider's range 0 to 800, the threshold
    assigned is an integer between 0 and 800, at most the value and less
    than one below it; the other threshold, the state, the count, the counter
    and the labels are left as they were.  Nothing relates the two
    thresholds: either may be moved past the other. *)
Theorem slider_assigns_integer_part {Frame : Type} (app : SquatApp Frame)
    (slider : Q) :
  (0 <= slider)%Q ->
  (slider <= 800)%Q ->
  let a := analyzer app in
  let top := analyzer (_on_top_change slider app) in
  let bottom := analyzer (_on_bottom_change slider app) in
  top = set_top_threshold (top_threshold top) a
  /\ bottom = set_bottom_threshold (bottom_threshold bottom) a
  /\ top_threshold top = bottom_threshold bottom
  /\ 0 <= top_threshold top <= 800
  /\ (inject_Z (top_threshold top) <= slider)%Q
  /\ (slider < inject_Z (top_threshold top + 1))%Q
  /\ rep_var (_on_top_change slider app) = rep_var app
  /\ rep_var (_on_bottom_change slider app) = rep_var app.
Proof.
  intros H0 H800. simpl.
  destruct (int_of_float_floor slider H0) as (F0 & F1 & F2).
  repeat split; try done; try lia.
  assert (L : (inject_Z (int_of_float slider) <= 800)%Q)
    by (eapply Qle_trans; eassumption).
  unfold Qle, inject_Z in L. simpl in L. lia.
Qed.

Lemma slider_assigns_integer_part_witness :
  let app : SquatApp unit :=
    mkSquatApp scenario_analyzer 33 true "Reps: 0" "State: -" "Status: -"
      "Pause" None 0 in
  let slider := (4015 # 10)%Q in
  let a := analyzer app in
  let top := analyzer (_on_top_change slider app) in
  let bottom := analyzer (_on_bottom_change slider app) in
  top = set_top_threshold (top_threshold top) a
  /\ bottom = set_bottom_threshold (bottom_threshold bottom) a
  /\ top_threshold top = bottom_threshold bottom
  /\ 0 <= top_threshold top <= 800
  /\ (inject_Z (top_threshold top) <= slider)%Q
  /\ (slider < inject_Z (top_threshold top + 1))%Q
  /\ rep_var (_on_top_change slider app) = rep_var app
  /\ rep_var (_on_bottom_change slider app) = rep_var app.
Proof.
  apply (slider_assigns_integer_part
           (mkSquatApp (Frame := unit) scenario_analyzer 33 true "Reps: 0"
              "State: -" "Status: -" "Pause" None 0)
           (4015 # 10)%Q).
  - vm_compute. discriminate.
  - vm_compute. discriminate.
Defined.

Example slider_401_5 : int_of_float (4015 # 10) = 401.
Proof. reflexivity. Qed.

(** ** The camera's marker dictionary *)

Section CameraFacts.
Context {Frame Corners : Type}.
Variable centre : Corners -> Z * Z.
Variable draw : list (Z * Corners) -> Frame -> Frame.

Lemma fold_insert_lookup detections : forall (acc : gmap Z Marker) id,
  fold_left (fun markers d => <[d.1 := mkMarker (centre d.2)]> markers)
    detections acc !! id
  = match last (detections_of id detections) with
    | Some d => Some (mkMarker (centre d.2))
    | None => acc !! id
    end.
Proof.
  unfold detections_of.
  induction detections as [|d ds IH]; intros acc id; [done|].
  simpl. rewrite IH. destruct (Z.eqb_spec d.1 id) as [E|E].
  - rewrite last_cons.
    destruct (last (List.filter _ ds)); [done|].
    by rewrite E, lookup_insert_eq.
  - destruct (last (List.filter _ ds)); [done|].
    by rewrite lookup_insert_ne.
Qed.

Lemma markers_of_lookup detections id :
  markers_of centre detections !! id
  = (fun d => mkMarker (centre d.2)) <$> last (detections_of id detections).
Proof.
  unfold markers_of. rewrite fold_insert_lookup.
  by destruct (last (detections_of id detections)).
Qed.

Lemma detections_of_nil id (detections : list (Z * Corners)) :
  last (detections_of id detections) = None <-> id ∉ map fst detections.
Proof.
  unfold detections_of. induction detections as [|d ds IH]; simpl.
  - split; [intros _|done]. apply not_elem_of_nil.
  - rewrite not_elem_of_cons. destruct (Z.eqb_spec d.1 id) as [E|E].
    + rewrite last_cons. split.
      * by destruct (last (List.filter _ ds)).
      * intros [N _]. by destruct N.
    + rewrite IH. split; [by split|tauto].
Qed.

(** X17: the dictionary the camera builds holds, for every marker id, the
    last detection of that id in the frame: an id detected more than once
    keeps the centre of its last detection only, and an id is a key exactly
    when it is among the detected ids. *)
Theorem markers_hold_last_detection (detections : list (Z * Corners))
    (id : Z) :
  markers_of centre detections !! id
  = (fun d => mkMarker (centre d.2)) <$> last (detections_of id detections)
  /\ (markers_of centre detections !! id = None
      <-> id ∉ map fst detections).
Proof.
  split; [apply markers_of_lookup|].
  rewrite markers_of_lookup, <- detections_of_nil.
  by destruct (last (detections_of id detections)).
Qed.

(** X18: from the camera to the result.  On the markers that
    [get_frame_and_markers] returns, [update] reports as depth the vertical
    centre of the last detection of [hip_id], and no depth when the read
    failed, when nothing was detected, or when [hip_id] is not among the
    detected ids; in those cases the analyzer is left as it was. *)
Theorem camera_to_analyzer (self : SquatAnalyzer) (read : option Frame)
    (ids : option (list (Z * Corners))) :
  let markers := (get_frame_and_markers centre draw read ids).2 in
  let hip :=
    match read, ids with
    | Some _, Some detections => last (detections_of (hip_id self) detections)
    | _, _ => None
    end in
  SquatResult.depth (update self markers).2
  = (fun d => (centre d.2).2) <$> hip
  /\ match hip with
     | Some _ => True
     | None => (update self markers).1 = self
     end.
Proof.
  simpl.
  set (markers := (get_frame_and_markers centre draw read ids).2).
  set (hip := match read with Some _ => _ | None => _ end).
  assert (L : markers !! hip_id self
              = (fun d => mkMarker (centre d.2)) <$> hip).
  { unfold markers, hip, get_frame_and_markers.
    destruct read; [|done]. destruct ids; [|done]. apply markers_of_lookup. }
  split.
  - pose proof (update_result_fields self markers) as F.
    destruct (update self markers) as [self' r]. simpl.
    destruct F as (_ & _ & ->). unfold reading. rewrite L.
    by destruct hip.
  - destruct hip; [done|]. simpl in L.
    by rewrite (update_absent self markers L).
Qed.

End CameraFacts.

Example duplicate_marker_id :
  markers_of (Corners := Z * Z) (fun c => c) [(0, (10, 400)); (3, (5, 5)); (0, (12, 150))]
  !! 0 = Some (mkMarker (12, 150)).
Proof. vm_compute. done. Qed.

(** ** The loop of the test program *)

(** X19: the quit test looks at the low byte of the key code only.  The
    loop is left exactly when the code is 113, the code of ["q"], modulo 256;
    the code -1 that [waitKey] returns when no key was pressed does not
    leave it. *)
Theorem quit_pressed_low_byte (key : Z) :
  (quit_pressed key = true <-> key mod 256 = 113)
  /\ quit_pressed (-1) = false
  /\ quit_pressed (key * 256 + 113) = true.
Proof.
  assert (E : forall k, quit_pressed k = (k mod 256 =? 113)).
  { intros k. unfold quit_pressed.
    change 255 with (Z.ones 8). rewrite Z.land_ones by lia. done. }
  split; [|split].
  - rewrite E. apply Z.eqb_eq.
  - done.
  - rewrite E. apply Z.eqb_eq.
    rewrite Z.add_comm, Z.mod_add by lia. done.
Qed.

Section TestLoop.
Context {Frame : Type}.
Implicit Types (tick : option Frame * gmap Z Marker * Z).

Lemma test_loop_goes_on (before : list (option Frame * gmap Z Marker * Z)) :
  forall self rest,
  forallb goes_on before = true ->
  test_loop self (before ++ rest)
  = ((test_loop (run self (map (fun t => t.1.2) before)).1 rest).1,
     (run self (map (fun t => t.1.2) before)).2
       ++ (test_loop (run self (map (fun t => t.1.2) before)).1 rest).2).
Proof.
  induction before as [|[[frame m] key] before IH]; intros self rest H.
  - simpl. by destruct (test_loop self rest).
  - simpl in H. apply andb_true_iff in H as [Hg H].
    destruct frame as [image|]; [|done]. apply negb_true_iff in Hg.
    rewrite <- app_comm_cons. simpl test_loop. simpl map.
    rewrite run_cons. destruct (update self m) as [self1 r].
    rewrite Hg, (IH self1 rest H). simpl. by destruct (run self1 _).
Qed.

(** X20: the test loop analyses every frame up to the one that ends it.
    After iterations that all go round, an iteration on which the camera
    returns no frame ends the loop without an [update]; one on which ["q"]
    is pressed ends it after its frame was analysed; the iterations listed
    after it play no part.  Up to there the loop is the run of [update] over
    the frames' markers. *)
Theorem test_loop_stops (self : SquatAnalyzer)
    (before after : list (option Frame * gmap Z Marker * Z))
    (image : Frame) (markers lost : gmap Z Marker) (key ignored : Z) :
  forallb goes_on before = true ->
  quit_pressed key = true ->
  test_loop self (before ++ (None, lost, ignored) :: after)
  = run self (map (fun t => t.1.2) before)
  /\ test_loop self (before ++ (Some image, markers, key) :: after)
     = run self (map (fun t => t.1.2) before ++ [markers])
  /\ test_loop self before = run self (map (fun t => t.1.2) before).
Proof.
  intros Hb Hq.
  rewrite !(test_loop_goes_on before) by done.
  split; [|split].
  - simpl. rewrite app_nil_r. by destruct (run self _).
  - rewrite run_app, run_single. simpl test_loop.
    destruct (update _ markers) as [self1 r]. by rewrite Hq.
  - rewrite <- (app_nil_r before) at 1.
    rewrite (test_loop_goes_on before) by done.
    simpl. rewrite app_nil_r. by destruct (run self _).
Qed.

End TestLoop.

Lemma test_loop_stops_witness :
  let before : list (option unit * gmap Z Marker * Z) :=
    [(Some tt, frame_at 0 400, -1); (Some tt, frame_at 0 400, 97)] in
  let after : list (option unit * gmap Z Marker * Z) :=
    [(Some tt, frame_at 0 150, -1)] in
  test_loop scenario_analyzer (before ++ (None, ∅, 0) :: after)
  = run scenario_analyzer (map (fun t => t.1.2) before)
  /\ test_loop scenario_analyzer
       (before ++ (Some tt, frame_at 0 150, 1048689) :: after)
     = run scenario_analyzer (map (fun t => t.1.2) before ++ [frame_at 0 150])
  /\ test_loop scenario_analyzer before
     = run scenario_analyzer (map (fun t => t.1.2) before).
Proof.
  apply (test_loop_stops scenario_analyzer
           [(Some tt, frame_at 0 400, -1); (Some tt, frame_at 0 400, 97)]
           [(Some tt, frame_at 0 150, -1)]
           tt (frame_at 0 150) ∅ 1048689 0).
  - reflexivity.
  - reflexivity.
Defined.
